(** * Etherscan v2 API example script: a shallow embedding and its properties

    The development follows [etherscan_api_example.py]: the formatters
    [format_balance] and [format_gas_prices], the client [EtherscanAPI] with
    its three query operations, and the driver [main].

    Python values are modelled as far as the script can meet them: the values
    [json.loads] can produce, integers as [Z], binary64 floats as a sign, an
    integer significand and a binary exponent.  Exceptions are explicit: a
    computation returns a value or raises.  A string is the UTF-8 encoding of
    a Python [str]. *)

From Stdlib Require Import ZArith Lia Bool Ascii String List.
From stdpp Require Import base option gmap strings fin_maps.

Local Open Scope Z_scope.
Set Warnings "-register-all".


(** ** Exceptions *)

Inductive exn : Type :=
| ValueError
| TypeError
| OverflowError
| ZeroDivisionError
| AttributeError
| KeyError
| RecursionError
| RequestException (msg : string)
    (* requests.exceptions.RequestException and its subclasses *)
| RequestsJSONDecodeError (msg : string)
    (* requests.exceptions.JSONDecodeError: a RequestException and a
       json.JSONDecodeError at once (requests 2.27 and later) *)
| JSONDecodeError (msg : string).
    (* json.JSONDecodeError alone (earlier versions of requests) *)

Inductive result (A : Type) : Type :=
| Return (a : A)
| Raise (e : exn).
Arguments Return {A} a.
Arguments Raise {A} e.

#[global] Instance result_ret : MRet result := fun _ a => Return a.

#[global] Instance result_bind : MBind result := fun _ _ k r =>
  match r with
  | Return a => k a
  | Raise e => Raise e
  end.

(** ** Python numbers *)

(** A binary64 float: [Finite neg m e] is [(-1)^neg * m * 2^e] with [0 <= m]. *)
Inductive pyfloat : Type :=
| Finite (neg : bool) (m : Z) (e : Z)
| Inf (neg : bool)
| NaN.

(** The values [json.loads] produces. *)
Inductive pyval : Type :=
| JNull
| JBool (b : bool)
| JInt (z : Z)
| JFloat (x : pyfloat)
| JStr (s : string)
| JArr (l : list pyval)
| JObj (d : gmap string pyval).

Abbreviation pydict := (gmap string pyval).

(** ** [int(str)]: CPython's [PyLong_FromString] in base 10 *)

Module PyInt.

(** [Py_ISSPACE]: tab, line feed, vertical tab, form feed, carriage return,
    space. *)
Definition Py_ISSPACE (c : ascii) : bool :=
  let n := Z.of_N (N_of_ascii c) in
  ((9 <=? n) && (n <=? 13)) || (n =? 32).

Definition digit_of (c : ascii) : option Z :=
  let n := Z.of_N (N_of_ascii c) in
  if (48 <=? n) && (n <=? 57) then Some (n - 48) else None.

Definition is_underscore (c : ascii) : bool := Ascii.eqb c "_".

Fixpoint lstrip (s : string) : string :=
  match s with
  | String c s' => if Py_ISSPACE c then lstrip s' else s
  | EmptyString => s
  end.

(** The scanning loop over digits and underscores.  [prev_us] records that the
    previous character was an underscore; two in a row, or one at the end of
    the run, is a syntax error.  The result is the value read, the number of
    digits (underscores not counted) and the rest of the string. *)
Fixpoint scan_digits (s : string) (prev_us : bool) (acc : Z) (digits : Z)
  : option (Z * Z * string) :=
  match s with
  | String c s' =>
      if is_underscore c then
        if prev_us then None else scan_digits s' true acc digits
      else
        match digit_of c with
        | Some d => scan_digits s' false (10 * acc + d) (digits + 1)
        | None => if prev_us then None else Some (acc, digits, s)
        end
  | EmptyString => if prev_us then None else Some (acc, digits, s)
  end.

(** Below this many digits the conversion limit is never consulted
    ([_PY_LONG_MAX_STR_DIGITS_THRESHOLD]). *)
Definition MAX_STR_DIGITS_THRESHOLD : Z := 640.

Definition over_limit (max_str_digits digits : Z) : bool :=
  (MAX_STR_DIGITS_THRESHOLD <? digits) && (0 <? max_str_digits)
  && (max_str_digits <? digits).

Definition split_sign (s : string) : bool * string :=
  match s with
  | String c r =>
      if Ascii.eqb c "+" then (false, r)
      else if Ascii.eqb c "-" then (true, r)
      else (false, s)
  | EmptyString => (false, s)
  end.

Definition starts_with_underscore (s : string) : bool :=
  match s with
  | String c _ => is_underscore c
  | EmptyString => false
  end.

(** [max_str_digits] is the interpreter's [sys.get_int_max_str_digits()]:
    4300 by default from CPython 3.11 on, 0 when the limit is switched off
    (and in the versions before the limit existed). *)
Definition from_string (max_str_digits : Z) (s : string) : result Z :=
  let '(neg, body) := split_sign (lstrip s) in
  if starts_with_underscore body then Raise ValueError
  else
    match scan_digits body false 0 0 with
    | None => Raise ValueError
    | Some (v, digits, rest) =>
        if digits =? 0 then Raise ValueError
        else if over_limit max_str_digits digits then Raise ValueError
        else
          match lstrip rest with
          | EmptyString => Return (if neg then - v else v)
          | String _ _ => Raise ValueError
          end
    end.

(** *** From a [str] to the ASCII text [PyLong_FromString] reads *)

Definition byte (c : ascii) : Z := Z.of_N (N_of_ascii c).

Definition chr (ch : Z) : ascii := ascii_of_N (Z.to_N ch).

Definition continuation (c : ascii) : bool := (128 <=? byte c) && (byte c <? 192).

(** The code point read for bytes that are not UTF-8: U+FFFD, neither a
    digit nor a space. *)
Definition REPLACEMENT : Z := 65533.

(** The code points of a string. *)
Fixpoint utf8_decode (s : string) : list Z :=
  match s with
  | EmptyString => []
  | String c0 r0 =>
      let b0 := byte c0 in
      if b0 <? 128 then b0 :: utf8_decode r0
      else
        match r0 with
        | String c1 r1 =>
            let two := (b0 - 192) * 64 + (byte c1 - 128) in
            if (192 <=? b0) && (b0 <? 224) && continuation c1 && (128 <=? two)
            then two :: utf8_decode r1
            else
              match r1 with
              | String c2 r2 =>
                  let three :=
                    (b0 - 224) * 4096 + (byte c1 - 128) * 64 + (byte c2 - 128) in
                  if (224 <=? b0) && (b0 <? 240) && continuation c1 && continuation c2
                     && (2048 <=? three)
                     && negb ((55296 <=? three) && (three <? 57344))
                  then three :: utf8_decode r2
                  else
                    match r2 with
                    | String c3 r3 =>
                        let four :=
                          (b0 - 240) * 262144 + (byte c1 - 128) * 4096
                          + (byte c2 - 128) * 64 + (byte c3 - 128) in
                        if (240 <=? b0) && (b0 <? 248) && continuation c1
                           && continuation c2 && continuation c3
                           && (65536 <=? four) && (four <? 1114112)
                        then four :: utf8_decode r3
                        else REPLACEMENT :: utf8_decode r0
                    | EmptyString => REPLACEMENT :: utf8_decode r0
                    end
              | EmptyString => REPLACEMENT :: utf8_decode r0
              end
        | EmptyString => [REPLACEMENT]
        end
  end.

(** [Py_UNICODE_ISSPACE]. *)
Definition Py_UNICODE_ISSPACE (ch : Z) : bool :=
  ((9 <=? ch) && (ch <=? 13)) || ((28 <=? ch) && (ch <=? 32))
  || (ch =? 133) || (ch =? 160) || (ch =? 5760)
  || ((8192 <=? ch) && (ch <=? 8202))
  || (ch =? 8232) || (ch =? 8233) || (ch =? 8239) || (ch =? 8287)
  || (ch =? 12288).

(** The zeros of the decimal digits of Unicode 14.0, the version of
    CPython 3.11; the nine code points after each are its digits 1 to 9. *)
Definition DECIMAL_ZEROS : list Z :=
  [ 48; 1632; 1776; 1984; 2406; 2534; 2662; 2790; 2918; 3046; 3174; 3302;
    3430; 3558; 3664; 3792; 3872; 4160; 4240; 6112; 6160; 6470; 6608; 6784;
    6800; 6992; 7088; 7232; 7248; 42528; 43216; 43264; 43472; 43504; 43600;
    44016; 65296; 66720; 68912; 69734; 69872; 69942; 70096; 70384; 70736;
    70864; 71248; 71360; 71472; 71904; 72016; 72784; 73040; 73120; 92768;
    92864; 93008; 120782; 120792; 120802; 120812; 120822; 123200; 123632;
    125264; 130032 ].

Fixpoint decimal_in (zeros : list Z) (ch : Z) : Z :=
  match zeros with
  | [] => -1
  | z :: zeros' =>
      if (z <=? ch) && (ch <? z + 10) then ch - z else decimal_in zeros' ch
  end.

(** [Py_UNICODE_TODECIMAL]: the digit value, or -1. *)
Definition Py_UNICODE_TODECIMAL (ch : Z) : Z := decimal_in DECIMAL_ZEROS ch.

(** [PyUnicode_IS_ASCII]. *)
Fixpoint IS_ASCII (s : string) : bool :=
  match s with
  | EmptyString => true
  | String c r => (byte c <? 128) && IS_ASCII r
  end.

(** The loop of [_PyUnicode_TransformDecimalAndSpaceToASCII]: a character
    that is neither ASCII, a space nor a digit becomes a question mark and
    ends the text. *)
Fixpoint transform_chars (chars : list Z) : string :=
  match chars with
  | [] => ""
  | ch :: rest =>
      if ch <? 127 then String (chr ch) (transform_chars rest)
      else if Py_UNICODE_ISSPACE ch then String " " (transform_chars rest)
      else
        let decimal := Py_UNICODE_TODECIMAL ch in
        if decimal <? 0 then "?"
        else String (chr (48 + decimal)) (transform_chars rest)
  end.

Definition TransformDecimalAndSpaceToASCII (s : string) : string :=
  if IS_ASCII s then s else transform_chars (utf8_decode s).

(** [int(s)] on a [str]: [PyLong_FromUnicodeObject] in base 10. *)
Definition from_unicode (max_str_digits : Z) (s : string) : result Z :=
  from_string max_str_digits (TransformDecimalAndSpaceToASCII s).

End PyInt.

(** ** Floats: true division of integers and fixed-point formatting *)

Module PyFloat.

(** Nearest integer to [p / q], ties to even ([0 <= p], [0 < q]). *)
Definition round_half_even (p q : Z) : Z :=
  let f := p / q in
  let r := p mod q in
  if 2 * r <? q then f
  else if q <? 2 * r then f + 1
  else if Z.even f then f else f + 1.

(** [floor (log2 (a / b))] for positive [a] and [b]. *)
Definition floor_log2_quot (a b : Z) : Z :=
  let L := Z.log2 a - Z.log2 b in
  if b * 2 ^ Z.max 0 L <=? a * 2 ^ Z.max 0 (- L) then L else L - 1.

Definition MANT_DIG : Z := 53.
Definition MIN_EXP : Z := -1074.  (* exponent of the least subnormal *)
Definition MAX_EXP : Z := 1024.

(** [int / int]: CPython's [long_true_divide].  The quotient is rounded once,
    to the nearest binary64 with ties to even; a result of magnitude
    [2^1024] or more raises [OverflowError]. *)
Definition long_true_divide (a b : Z) : result pyfloat :=
  if b =? 0 then Raise ZeroDivisionError
  else
    let neg := xorb (a <? 0) (b <? 0) in
    if a =? 0 then Return (Finite neg 0 0)
    else
      let a' := Z.abs a in
      let b' := Z.abs b in
      let e := Z.max MIN_EXP (floor_log2_quot a' b' - (MANT_DIG - 1)) in
      let m := round_half_even (a' * 2 ^ Z.max 0 (- e)) (b' * 2 ^ Z.max 0 e) in
      if (0 <=? e) && (2 ^ MAX_EXP <=? m * 2 ^ e) then Raise OverflowError
      else Return (Finite neg m e).

(** [int(x)] on a float: truncation toward zero. *)
Definition to_int (x : pyfloat) : result Z :=
  match x with
  | Finite neg m e =>
      let a := (m * 2 ^ Z.max 0 e) / 2 ^ Z.max 0 (- e) in
      Return (if neg then - a else a)
  | Inf _ => Raise OverflowError
  | NaN => Raise ValueError
  end.

Definition digit_char (d : Z) : ascii := ascii_of_N (Z.to_N (48 + d)).

(** The last [k] decimal digits of [r], most significant first. *)
Fixpoint fixed_digits (k : nat) (r : Z) (acc : string) : string :=
  match k with
  | O => acc
  | S k' => fixed_digits k' (r / 10) (String (digit_char (r mod 10)) acc)
  end.

Fixpoint dec_digits (fuel : nat) (n : Z) (acc : string) : string :=
  match fuel with
  | O => acc
  | S f =>
      let acc' := String (digit_char (n mod 10)) acc in
      if n <? 10 then acc' else dec_digits f (n / 10) acc'
  end.

(** Decimal numeral of a natural number. *)
Definition str_of_nat (n : Z) : string :=
  dec_digits (S (Z.to_nat (Z.log2 n))) n "".

(** [k] millionths written with six fractional digits. *)
Definition fixed6 (neg : bool) (k : Z) : string :=
  (if neg then "-" else "") +:+ str_of_nat (k / 10 ^ 6) +:+ "."
  +:+ fixed_digits 6 (k mod 10 ^ 6) "".

(** [format(x, ".6f")]: the exact binary value rounded to six decimals, ties
    to even; the sign of the float is kept, also on a zero result. *)
Definition format_f6 (x : pyfloat) : string :=
  match x with
  | Finite neg m e =>
      fixed6 neg
        (round_half_even (m * 10 ^ 6 * 2 ^ Z.max 0 e) (2 ^ Z.max 0 (- e)))
  | Inf neg => if neg then "-inf" else "inf"
  | NaN => "nan"
  end.

End PyFloat.

(** [int(v)] on a decoded JSON value. *)
Definition py_int (max_str_digits : Z) (v : pyval) : result Z :=
  match v with
  | JStr s => PyInt.from_unicode max_str_digits s
  | JInt z => Return z
  | JBool b => Return (if b then 1 else 0)
  | JFloat x => PyFloat.to_int x
  | JNull | JArr _ | JObj _ => Raise TypeError
  end.

(** ** [format_balance] *)

Section Interpreter.

(** The interpreter's limit on [int(str)] conversions, see
    [PyInt.from_string]. *)
Variable max_str_digits : Z.

(** [decimals] is a natural number: the script passes 6 and 18, and a
    negative exponent would make [10 ** decimals] a float. *)
Definition format_balance (balance_wei : pyval) (decimals : N) : result string :=
  match
    (n ← py_int max_str_digits balance_wei;
     balance ← PyFloat.long_true_divide n (10 ^ Z.of_N decimals);
     Return (PyFloat.format_f6 balance))
  with
  | Raise ValueError | Raise TypeError => Return "Invalid balance"%string
  | r => r
  end.

End Interpreter.

(** ** Python text helpers *)

Definition nl : string := String "010"%char "".

(** [s * n] on a string. *)
Fixpoint py_repeat (s : string) (n : nat) : string :=
  match n with
  | O => ""
  | S n' => s +:+ py_repeat s n'
  end.

(** [str(z)] on an integer. *)
Definition str_of_int (z : Z) : string :=
  (if z <? 0 then "-" else "") +:+ PyFloat.str_of_nat (Z.abs z).

(** [d.get(key)]: [None] when the key is absent. *)
Definition dict_get (d : pydict) (key : string) : pyval :=
  default JNull (d !! key).

(** [d.get(key, dflt)]. *)
Definition dict_get_default (d : pydict) (key : string) (dflt : pyval) : pyval :=
  default dflt (d !! key).

Definition is_None (v : pyval) : bool :=
  match v with
  | JNull => true
  | _ => false
  end.

(** [v == "1"]: only the string ["1"] is equal to it. *)
Definition eq_str (v : pyval) (s : string) : bool :=
  match v with
  | JStr s' => String.eqb s' s
  | _ => false
  end.

(** Truth value of an [Optional[Dict]]: [None] and the empty dict are false. *)
Definition truthy (data : option pydict) : bool :=
  match data with
  | None => false
  | Some d => negb (bool_decide (d = ∅))
  end.

(** The dict behind an [Optional[Dict]] that has passed its truth test. *)
Definition dict_of (data : option pydict) : pydict := default ∅ data.

(** [key in d]. *)
Definition dict_contains (d : pydict) (key : string) : bool :=
  bool_decide (is_Some (d !! key)).

(** [d[key]]. *)
Definition dict_item (d : pydict) (key : string) : result pyval :=
  match d !! key with
  | Some v => Return v
  | None => Raise KeyError
  end.

(** [v.get]: only a dict has the attribute. *)
Definition as_dict (v : pyval) : result pydict :=
  match v with
  | JObj d => Return d
  | _ => Raise AttributeError
  end.

Section Repr.

(** Python's [repr] on the decoded values that are not strings.  On those
    values [str] and [repr] agree, and on a string [str] is the identity. *)
Variable repr : pyval -> string.

(** [str(v)], which is also what an f-string field without a format
    specification inserts. *)
Definition py_str (v : pyval) : string :=
  match v with
  | JStr s => s
  | _ => repr v
  end.

(** ** [format_gas_prices] *)

(** The list [lines] as it stands when it is joined. *)
Definition gas_price_lines (result : pydict) : list string :=
  let lines :=
    [ nl +:+ "=== Current Gas Prices (Gwei) ===";
      "Safe Gas Price:    "
        +:+ py_str (dict_get_default result "SafeGasPrice" (JStr "N/A")) +:+ " Gwei";
      "Propose Gas Price: "
        +:+ py_str (dict_get_default result "ProposeGasPrice" (JStr "N/A")) +:+ " Gwei";
      "Fast Gas Price:    "
        +:+ py_str (dict_get_default result "FastGasPrice" (JStr "N/A")) +:+ " Gwei";
      "Last Block:        "
        +:+ py_str (dict_get_default result "LastBlock" (JStr "N/A")) ]%string in
  let suggest_base_fee := dict_get result "suggestBaseFee" in
  if negb (is_None suggest_base_fee) then
    lines ++ [ "Suggested Base Fee: " +:+ py_str suggest_base_fee +:+ " Gwei" ]
  else lines.

Definition format_gas_prices (data : option pydict) : result string :=
  if negb (truthy data) || negb (dict_contains (dict_of data) "result")
  then Return "No gas price data available"%string
  else
    result ← dict_item (dict_of data) "result";
    result_get ← as_dict result;
    Return (String.concat nl (gas_price_lines result_get)).

End Repr.

(** ** The HTTP session *)

(** A query parameter value: the script passes strings and the integer
    chain id. *)
Inductive param : Type :=
| PStr (s : string)
| PInt (z : Z).

Abbreviation params_map := (gmap string param).

(** The call [session.get(url, params=params, timeout=timeout)] together with
    the query the session prepares for it. *)
Record request : Type := {
  url : string;
  params : params_map;   (* the per-call mapping, as passed *)
  query : params_map;    (* per-call parameters merged over the session's *)
  timeout : Z
}.

(** What [response.json()] gives: a value; a decoding error, which requests
    2.27 and later raises as its own [JSONDecodeError] and earlier versions
    ([legacy]) as the one of the [json] module; or one of the two errors with
    which [json.loads] gives up on a text that is JSON, the [ValueError] of
    an integer with more digits than the interpreter converts and the
    [RecursionError] of a nesting too deep.  These two are not decoding
    errors and [response.json()] passes them on. *)
Inductive decoded : Type :=
| Decoded (v : pyval)
| Undecodable (legacy : bool) (msg : string)
| Overlong
| TooDeep.

Record response : Type := {
  status_code : Z;
  reason : string;
  response_url : string;
  json_body : decoded
}.

(** What [session.get] does: it raises a [RequestException] (connection
    error, timeout, too many redirects, ...) or returns a response. *)
Inductive http_outcome : Type :=
| TransportError (msg : string)
| Responded (r : response).

(** [requests.Session]: only the default query parameters matter here. *)
Record Session : Type := { session_params : params_map }.

Definition Session_new : Session := {| session_params := ∅ |}.

(** [merge_setting]: the session's parameters updated with the request's. *)
Definition merge_setting (request_setting session_setting : params_map) : params_map :=
  request_setting ∪ session_setting.

(** [response.raise_for_status()]. *)
Definition raise_for_status (r : response) : result unit :=
  let code := status_code r in
  if (400 <=? code) && (code <? 500) then
    Raise (RequestException
             (str_of_int code +:+ " Client Error: " +:+ reason r
              +:+ " for url: " +:+ response_url r))
  else if (500 <=? code) && (code <? 600) then
    Raise (RequestException
             (str_of_int code +:+ " Server Error: " +:+ reason r
              +:+ " for url: " +:+ response_url r))
  else Return tt.

(** [response.json()]. *)
Definition response_json (r : response) : result pyval :=
  match json_body r with
  | Decoded v => Return v
  | Undecodable legacy msg =>
      Raise (if legacy then JSONDecodeError msg else RequestsJSONDecodeError msg)
  | Overlong => Raise ValueError
  | TooDeep => Raise RecursionError
  end.

(** ** The client object and the world it runs in *)

Record EtherscanAPI : Type := {
  api_key : string;
  chainid : Z;
  base_url : string;
  session : Session
}.

Inductive event : Type :=
| Printed (line : string)          (* print(line) *)
| Sent (r : request)               (* a GET request handed to the transport *)
| Called (formatter : string).     (* a call of one of the formatters *)

(** The state a run threads: the client object [self] and what has happened
    so far, oldest event first. *)
Record world : Type := {
  self : EtherscanAPI;
  trace : list event
}.

Definition M (A : Type) : Type := world -> result A * world.

Definition ret {A : Type} (a : A) : M A := fun w => (Return a, w).

Definition bindM {A B : Type} (m : M A) (k : A -> M B) : M B :=
  fun w =>
    match m w with
    | (Return a, w') => k a w'
    | (Raise e, w') => (Raise e, w')
    end.

Notation "x <~ m ;; k" := (bindM m (fun x => k))
  (at level 100, m at next level, right associativity).
Notation "m ;;; k" := (bindM m (fun _ => k))
  (at level 100, right associativity).

Definition lift {A : Type} (r : result A) : M A := fun w => (r, w).

Definition log (ev : event) : M unit :=
  fun w => (Return tt, {| self := self w; trace := trace w ++ [ev] |}).

Definition print (line : string) : M unit := log (Printed line).

Definition get_self : M EtherscanAPI := fun w => (Return (self w), w).

(** [try: body except ...]: [handler e] is the clause that catches [e], if
    there is one. *)
Definition try_except {A : Type} (body : M A) (handler : exn -> option (M A)) : M A :=
  fun w =>
    match body w with
    | (Raise e, w') =>
        match handler e with
        | Some h => h w'
        | None => (Raise e, w')
        end
    | r => r
    end.

(** A call of one of the three operations. *)
Inductive call : Type :=
| GetGasPrices
| GetTokenBalance (contract_address wallet_address : string)
| GetEthBalance (wallet_address : string).

Section Program.

Variable max_str_digits : Z.
Variable repr : pyval -> string.

(** The network: what the transport answers to a request, given everything
    that has happened before it. *)
Variable net : list event -> request -> http_outcome.

(** [session.get(url, params=params, timeout=timeout)]: the session merges
    its default parameters into a fresh mapping and leaves its own
    untouched. *)
Definition Session_get (s : Session) (url : string) (params : params_map)
    (timeout : Z) : M response :=
  fun w =>
    let req := {| url := url; params := params;
                  query := merge_setting params (session_params s);
                  timeout := timeout |} in
    let w' := {| self := self w; trace := trace w ++ [Sent req] |} in
    match net (trace w) req with
    | TransportError msg => (Raise (RequestException msg), w')
    | Responded r => (Return r, w')
    end.

(** ** [EtherscanAPI] *)

Definition EtherscanAPI_init (api_key : string) (chainid : Z) : EtherscanAPI :=
  let session := Session_new in
  let session :=
    {| session_params :=
         (* session.params.update({...}) *)
         {[ "apikey"%string := PStr api_key; "chainid"%string := PInt chainid ]}
         ∪ session_params session |} in
  {| api_key := api_key;
     chainid := chainid;
     base_url := "https://api.etherscan.io/api";
     session := session |}.

(** The [except] clauses shared by the three operations.  The clause for
    [RequestException] comes first, so it is the one that takes the JSON
    error of requests 2.27 and later. *)
Definition request_handlers (e : exn) : option (M (option pydict)) :=
  match e with
  | RequestException msg | RequestsJSONDecodeError msg =>
      Some (print ("✗ Request failed: " +:+ msg) ;;; ret None)
  | JSONDecodeError msg =>
      Some (print ("✗ Failed to parse JSON response: " +:+ msg) ;;; ret None)
  | _ => None
  end.

Definition get_gas_prices : M (option pydict) :=
  let params : params_map :=
    {[ "module"%string := PStr "gastracker";
       "action"%string := PStr "gasoracle" ]} in
  try_except
    (self <~ get_self ;;
     response <~ Session_get (session self) (base_url self) params 10 ;;
     lift (raise_for_status response) ;;;
     data <~ lift (response_json response) ;;
     data_get <~ lift (as_dict data) ;;
     if eq_str (dict_get data_get "status") "1" then
       print "✓ Gas prices fetched successfully" ;;;
       ret (Some data_get)
     else
       print ("✗ API returned error: "
              +:+ py_str repr (dict_get_default data_get "message" (JStr "Unknown error"))) ;;;
       ret None)
    request_handlers.

Definition get_token_balance (contract_address wallet_address : string) : M (option pydict) :=
  let params : params_map :=
    {[ "module"%string := PStr "account";
       "action"%string := PStr "tokenbalance";
       "contractaddress"%string := PStr contract_address;
       "address"%string := PStr wallet_address;
       "tag"%string := PStr "latest" ]} in
  try_except
    (self <~ get_self ;;
     response <~ Session_get (session self) (base_url self) params 10 ;;
     lift (raise_for_status response) ;;;
     data <~ lift (response_json response) ;;
     data_get <~ lift (as_dict data) ;;
     if eq_str (dict_get data_get "status") "1" then
       print "✓ Token balance fetched successfully" ;;;
       ret (Some data_get)
     else
       print ("✗ API returned error: "
              +:+ py_str repr (dict_get_default data_get "message" (JStr "Unknown error"))) ;;;
       ret None)
    request_handlers.

Definition get_eth_balance (wallet_address : string) : M (option pydict) :=
  let params : params_map :=
    {[ "module"%string := PStr "account";
       "action"%string := PStr "balance";
       "address"%string := PStr wallet_address;
       "tag"%string := PStr "latest" ]} in
  try_except
    (self <~ get_self ;;
     response <~ Session_get (session self) (base_url self) params 10 ;;
     lift (raise_for_status response) ;;;
     data <~ lift (response_json response) ;;
     data_get <~ lift (as_dict data) ;;
     if eq_str (dict_get data_get "status") "1" then
       print "✓ ETH balance fetched successfully" ;;;
       ret (Some data_get)
     else
       print ("✗ API returned error: "
              +:+ py_str repr (dict_get_default data_get "message" (JStr "Unknown error"))) ;;;
       ret None)
    request_handlers.

(** The three operations share one shape: they differ in [params] and in the
    line printed on success. *)
Definition fetch (params : params_map) (success_line : string) : M (option pydict) :=
  try_except
    (self <~ get_self ;;
     response <~ Session_get (session self) (base_url self) params 10 ;;
     lift (raise_for_status response) ;;;
     data <~ lift (response_json response) ;;
     data_get <~ lift (as_dict data) ;;
     if eq_str (dict_get data_get "status") "1" then
       print success_line ;;;
       ret (Some data_get)
     else
       print ("✗ API returned error: "
              +:+ py_str repr (dict_get_default data_get "message" (JStr "Unknown error"))) ;;;
       ret None)
    request_handlers.

Definition params_of (c : call) : params_map :=
  match c with
  | GetGasPrices =>
      {[ "module"%string := PStr "gastracker";
         "action"%string := PStr "gasoracle" ]}
  | GetTokenBalance contract_address wallet_address =>
      {[ "module"%string := PStr "account";
         "action"%string := PStr "tokenbalance";
         "contractaddress"%string := PStr contract_address;
         "address"%string := PStr wallet_address;
         "tag"%string := PStr "latest" ]}
  | GetEthBalance wallet_address =>
      {[ "module"%string := PStr "account";
         "action"%string := PStr "balance";
         "address"%string := PStr wallet_address;
         "tag"%string := PStr "latest" ]}
  end.

Definition success_line_of (c : call) : string :=
  match c with
  | GetGasPrices => "✓ Gas prices fetched successfully"
  | GetTokenBalance _ _ => "✓ Token balance fetched successfully"
  | GetEthBalance _ => "✓ ETH balance fetched successfully"
  end.

Definition run_call (c : call) : M (option pydict) :=
  match c with
  | GetGasPrices => get_gas_prices
  | GetTokenBalance contract wallet => get_token_balance contract wallet
  | GetEthBalance wallet => get_eth_balance wallet
  end.

(** A sequence of calls by a caller that goes on whatever a call returns or
    raises. *)
Fixpoint run_calls (cs : list call) (w : world) : world :=
  match cs with
  | [] => w
  | c :: cs' => run_calls cs' (snd (run_call c w))
  end.

(** ** [main] *)

Definition construct (api_key : string) (chainid : Z) : M unit :=
  fun w => (Return tt,
            {| self := EtherscanAPI_init api_key chainid; trace := trace w |}).

Definition usdt_contract : string := "0xdac17f958d2ee523a2206206994597c13d831ec7".
Definition example_wallet : string := "0xd8dA6BF26964aF9D7eEd9e03E53415D37aA96045".

Definition rule (c : string) : string := py_repeat c 60.

(** [if gas_data: print(format_gas_prices(gas_data))] *)
Definition show_gas_prices (gas_data : option pydict) : M unit :=
  if truthy gas_data then
    log (Called "format_gas_prices") ;;;
    text <~ lift (format_gas_prices repr gas_data) ;;
    print text
  else ret tt.

(** [if data: ... format_balance(data.get("result", "0"), decimals) ...] *)
Definition show_balance (data : option pydict) (decimals : N) (label unit_name : string)
  : M unit :=
  if truthy data then
    let balance_wei := dict_get_default (dict_of data) "result" (JStr "0") in
    log (Called "format_balance") ;;;
    balance <~ lift (format_balance max_str_digits balance_wei decimals) ;;
    print (nl +:+ label +:+ balance +:+ " " +:+ unit_name)
  else ret tt.

Definition example1_heading : M unit :=
  print (nl +:+ rule "-") ;;;
  print "Example 1: Fetching Gas Prices" ;;;
  print (rule "-").

Definition example1 : M unit :=
  example1_heading ;;;
  gas_data <~ get_gas_prices ;;
  show_gas_prices gas_data.

Definition example2_heading : M unit :=
  print (nl +:+ rule "-") ;;;
  print "Example 2: Fetching Token Balance" ;;;
  print (rule "-") ;;;
  print ("Contract: " +:+ usdt_contract) ;;;
  print ("Wallet:   " +:+ example_wallet).

Definition example2 : M unit :=
  example2_heading ;;;
  token_data <~ get_token_balance usdt_contract example_wallet ;;
  (* USDT has 6 decimals, not 18 *)
  show_balance token_data 6 "Token Balance: " "USDT".

Definition example3_heading : M unit :=
  print (nl +:+ rule "-") ;;;
  print "Example 3: Fetching ETH Balance" ;;;
  print (rule "-") ;;;
  print ("Wallet: " +:+ example_wallet).

Definition example3 : M unit :=
  example3_heading ;;;
  eth_data <~ get_eth_balance example_wallet ;;
  show_balance eth_data 18 "ETH Balance: " "ETH".

Definition summary : M unit :=
  print (nl +:+ rule "=") ;;;
  print "Summary:" ;;;
  print (rule "=") ;;;
  print "✓ All API calls include the required 'chainid' parameter" ;;;
  print "✓ JSON responses are properly parsed and handled" ;;;
  print "✓ Error handling is implemented for network and parsing issues" ;;;
  print (nl +:+ "Chain IDs Reference:") ;;;
  print "  - 1: Ethereum Mainnet" ;;;
  print "  - 11155111: Sepolia Testnet" ;;;
  print "  Note: Goerli testnet (chainid: 5) has been deprecated" ;;;
  print (rule "=").

Definition main : M unit :=
  print (rule "=") ;;;
  print "Etherscan v2 API Example - Proper chainid Parameter Usage" ;;;
  print (rule "=") ;;;
  construct "YourApiKeyToken" 1 ;;;
  api <~ get_self ;;
  print (nl +:+ "Using chainid: " +:+ str_of_int (chainid api) +:+ " (Ethereum Mainnet)") ;;;
  print (nl +:+ "Note: Replace 'YourApiKeyToken' with your actual API key for real usage."
         +:+ nl) ;;;
  example1 ;;;
  example2 ;;;
  example3 ;;;
  summary.

End Program.

(** * What the specification says, in its own words *)

(** ** Decimal-integer literals

    The literals [int] reads in base 10: optional white space, an optional
    sign, digits with single underscores allowed between them, optional white
    space. *)

Module Literal.

Fixpoint all_space (s : string) : bool :=
  match s with
  | EmptyString => true
  | String c r => PyInt.Py_ISSPACE c && all_space r
  end.

Inductive sign : string -> bool -> Prop :=
| sign_none : sign "" false
| sign_plus : sign "+" false
| sign_minus : sign "-" true.

(** [digits b ds]: [b] is a run of digits, possibly grouped by single
    underscores, and [ds] are the digits in order. *)
Inductive digits : string -> list Z -> Prop :=
| digits_last c d :
    PyInt.digit_of c = Some d -> digits (String c "") [d]
| digits_next c d b ds :
    PyInt.digit_of c = Some d -> digits b ds -> digits (String c b) (d :: ds)
| digits_group c d b ds :
    PyInt.digit_of c = Some d -> digits b ds ->
    digits (String c (String "_" b)) (d :: ds).

Definition shift_in (acc d : Z) : Z := 10 * acc + d.

Definition value_of (ds : list Z) : Z := fold_left shift_in ds 0.

(** [decimal_literal s n k]: [s] is a literal of value [n] written with [k]
    digits. *)
Inductive decimal_literal : string -> Z -> Z -> Prop :=
| literal ws1 sg neg b ds ws2 :
    all_space ws1 = true -> sign sg neg -> digits b ds -> all_space ws2 = true ->
    decimal_literal (ws1 +:+ sg +:+ b +:+ ws2)
      (if neg then - value_of ds else value_of ds)
      (Z.of_nat (length ds)).

(** The ASCII reading of a string: a character outside ASCII is read as a
    space if it is a Unicode white space, as the ASCII digit of its value if
    it is a Unicode decimal digit, and as a question mark otherwise. *)
Fixpoint image_chars (chars : list Z) : string :=
  match chars with
  | [] => ""
  | ch :: rest =>
      String
        (if ch <? 128 then PyInt.chr ch
         else if PyInt.Py_UNICODE_ISSPACE ch then " "%char
         else if PyInt.Py_UNICODE_TODECIMAL ch <? 0 then "?"%char
         else PyInt.chr (48 + PyInt.Py_UNICODE_TODECIMAL ch))
        (image_chars rest)
  end.

Definition ascii_image (s : string) : string := image_chars (PyInt.utf8_decode s).

(** [unicode_literal s n k]: [s] is a decimal-integer literal of value [n]
    with [k] digits, its digits and white space taken from any script. *)
Definition unicode_literal (s : string) (n k : Z) : Prop :=
  decimal_literal (ascii_image s) n k.

(** The characters a literal is made of. *)
Definition literal_char (c : ascii) : bool :=
  PyInt.Py_ISSPACE c || PyInt.is_underscore c
  || match PyInt.digit_of c with Some _ => true | None => false end
  || Ascii.eqb c "+" || Ascii.eqb c "-".

Fixpoint all_chars (p : ascii -> bool) (s : string) : bool :=
  match s with
  | EmptyString => true
  | String c r => p c && all_chars p r
  end.

End Literal.

(** ** Exact rendering with six fractional digits

    [rendering n d out]: [out] shows [n / 10^d] with six fractional digits,
    as [k] millionths where [k / 10^6] is the value itself when that has at
    most six fractional digits, and one of its two neighbours with six
    digits otherwise.  The sign is the sign of [n]. *)
Definition rendering (n : Z) (d : N) (out : string) : Prop :=
  exists k, 0 <= k
    /\ Z.abs (k * 10 ^ Z.of_N d - Z.abs n * 10 ^ 6) < 10 ^ Z.of_N d
    /\ out = PyFloat.fixed6 (n <? 0) k.

(** ** Text inclusion *)

Fixpoint starts_with (sub s : string) : bool :=
  match sub, s with
  | EmptyString, _ => true
  | String a sub', String b s' => Ascii.eqb a b && starts_with sub' s'
  | String _ _, EmptyString => false
  end.

Fixpoint includesb (sub s : string) : bool :=
  starts_with sub s
  || match s with
     | EmptyString => false
     | String _ s' => includesb sub s'
     end.

(** [sub] occurs in [s]. *)
Definition includes (sub s : string) : Prop :=
  exists before after, s = before +:+ sub +:+ after.

(** ** The gas-price table

    The four fields the table always shows, each with the text before and
    after its value, and the shape of the optional sixth line. *)
Definition gas_fields : list (string * string * string) :=
  [ ("SafeGasPrice", "Safe Gas Price:    ", " Gwei");
    ("ProposeGasPrice", "Propose Gas Price: ", " Gwei");
    ("FastGasPrice", "Fast Gas Price:    ", " Gwei");
    ("LastBlock", "Last Block:        ", "") ]%string.

Definition base_fee_line (line : string) : Prop :=
  exists text, line = "Suggested Base Fee: " +:+ text +:+ " Gwei".

(** ** Requests on the wire *)

(** The world after further events. *)
Definition after (w : world) (evs : list event) : world :=
  {| self := self w; trace := trace w ++ evs |}.

(** The requests in a trace, oldest first. *)
Fixpoint requests_of (tr : list event) : list request :=
  match tr with
  | [] => []
  | Sent r :: tr' => r :: requests_of tr'
  | _ :: tr' => requests_of tr'
  end.

(** The request a call is to send from world [w]: the client's base URL, the
    call's own parameters merged over the session's, and the fixed timeout. *)
Definition request_of (c : call) (w : world) : request :=
  {| url := base_url (self w);
     params := params_of c;
     query := merge_setting (params_of c) (session_params (session (self w)));
     timeout := 10 |}.


(** The response passes [raise_for_status] and decodes to [v]. *)
Definition decodes_to (o : http_outcome) (v : pyval) : Prop :=
  match o with
  | TransportError _ => False
  | Responded r =>
      ~ (400 <= status_code r < 600) /\ json_body r = Decoded v
  end.

(** ** The shape of a formatted balance *)

Definition is_digit (c : ascii) : bool :=
  match PyInt.digit_of c with
  | Some _ => true
  | None => false
  end.

Fixpoint all_digits (s : string) : bool :=
  match s with
  | EmptyString => true
  | String c r => is_digit c && all_digits r
  end.

(** [out] is an optional minus sign, at least one digit, a point and exactly
    six digits. *)
Definition fixed_point_text (out : string) : Prop :=
  exists sign int_part frac_part,
    out = sign +:+ int_part +:+ "." +:+ frac_part
    /\ (sign = ""%string \/ sign = "-"%string)
    /\ int_part <> ""%string /\ all_digits int_part = true
    /\ String.length frac_part = 6%nat /\ all_digits frac_part = true.

(** ** The requests of the driver *)

(** The client [main] constructs, and the three requests it has to send, in
    order. *)
Definition main_client : EtherscanAPI := EtherscanAPI_init "YourApiKeyToken" 1.

Definition main_calls : list call :=
  [ GetGasPrices;
    GetTokenBalance usdt_contract example_wallet;
    GetEthBalance example_wallet ].

Definition main_requests : list request :=
  map (fun c => request_of c {| self := main_client; trace := [] |}) main_calls.

Definition is_formatter_call (ev : event) : bool :=
  match ev with
  | Called _ => true
  | _ => false
  end.

(** The shape the three examples of the driver share: a heading, one call,
    and what is done with its result. *)
Definition example_block (repr : pyval -> string)
    (net : list event -> request -> http_outcome)
    (heading : M unit) (c : call) (show : option pydict -> M unit) : M unit :=
  heading ;;; data <~ run_call repr net c ;; show data.

(** The ways a part of the driver can end. *)
Definition driver_end (r : result unit) : Prop :=
  r = Return tt \/ r = Raise AttributeError \/ r = Raise OverflowError
  \/ r = Raise ValueError \/ r = Raise RecursionError.

(** [run] is a run from [w] that leaves the client object alone, ends in one
    of the driver's ways and sends the requests [reqs] in order: all of them
    if it returns, and the first so many if it raises. *)
Definition sends_in_order (reqs : list request) (w : world)
    (run : result unit * world) : Prop :=
  driver_end (fst run)
  /\ exists evs sent rest,
       snd run = after w evs
       /\ requests_of evs = sent
       /\ reqs = sent ++ rest
       /\ (fst run = Return tt -> rest = []).

Definition no_formatter_call (evs : list event) : bool :=
  forallb (fun ev => negb (is_formatter_call ev)) evs.


(** * Properties *)

(** ** Strings *)

Lemma append_cons (c : ascii) (a b : string) :
  String c a +:+ b = String c (a +:+ b).
Proof. reflexivity. Qed.

Lemma append_empty_l (a : string) : "" +:+ a = a.
Proof. reflexivity. Qed.

Lemma append_assoc (a b c : string) : (a +:+ b) +:+ c = a +:+ (b +:+ c).
Proof.
  induction a as [|x a' IH]; [reflexivity |].
  now rewrite !append_cons, IH.
Qed.

Lemma append_empty_r (a : string) : a +:+ "" = a.
Proof.
  induction a as [|x a' IH]; [reflexivity |].
  now rewrite append_cons, IH.
Qed.

Lemma starts_with_append (sub rest : string) : starts_with sub (sub +:+ rest) = true.
Proof.
  induction sub as [|c sub' IH]; [reflexivity |].
  rewrite append_cons. cbn [starts_with].
  now rewrite Ascii.eqb_refl, IH.
Qed.

Lemma includesb_append (sub before after : string) :
  includesb sub (before +:+ sub +:+ after) = true.
Proof.
  induction before as [|c before' IH].
  - rewrite append_empty_l.
    destruct (sub +:+ after) eqn:E; cbn [includesb];
      rewrite <- E, starts_with_append; reflexivity.
  - rewrite append_cons. cbn [includesb]. rewrite IH. apply orb_true_r.
Qed.

Lemma includes_includesb (sub s : string) : includes sub s -> includesb sub s = true.
Proof. intros (before & after & ->). apply includesb_append. Qed.

(** ** [int(str)] reads exactly the decimal-integer literals *)

Module PyIntFacts.
Import PyInt Literal.

Lemma digit_not_underscore c d : digit_of c = Some d -> is_underscore c = false.
Proof.
  unfold digit_of, is_underscore. intros H.
  destruct (Ascii.eqb_spec c "_") as [-> | _]; [discriminate H | reflexivity].
Qed.

Lemma digit_not_space c d : digit_of c = Some d -> Py_ISSPACE c = false.
Proof.
  unfold digit_of, Py_ISSPACE.
  set (n := Z.of_N (N_of_ascii c)).
  destruct ((48 <=? n) && (n <=? 57)) eqn:E; [|discriminate].
  intros _. apply andb_true_iff in E as [E1 E2].
  apply Z.leb_le in E1. apply Z.leb_le in E2.
  apply orb_false_iff. split.
  - apply andb_false_iff. right. apply Z.leb_gt. lia.
  - apply Z.eqb_neq. lia.
Qed.

Lemma digit_not_sign c d :
  digit_of c = Some d -> Ascii.eqb c "+" = false /\ Ascii.eqb c "-" = false.
Proof.
  unfold digit_of. intros H. split.
  - destruct (Ascii.eqb_spec c "+") as [-> | _]; [discriminate H | reflexivity].
  - destruct (Ascii.eqb_spec c "-") as [-> | _]; [discriminate H | reflexivity].
Qed.

Lemma space_not_digit c : Py_ISSPACE c = true -> digit_of c = None.
Proof.
  intros H. destruct (digit_of c) as [d|] eqn:E; [|reflexivity].
  apply digit_not_space in E. congruence.
Qed.

Lemma space_not_underscore c : Py_ISSPACE c = true -> is_underscore c = false.
Proof.
  unfold is_underscore. intros H.
  destruct (Ascii.eqb_spec c "_") as [-> | _]; [discriminate H | reflexivity].
Qed.

Lemma lstrip_spaces ws rest :
  all_space ws = true -> lstrip (ws +:+ rest) = lstrip rest.
Proof.
  induction ws as [|c ws' IH]; [reflexivity |].
  rewrite append_cons. cbn [all_space lstrip].
  intros H. apply andb_true_iff in H as [Hc Hws].
  rewrite Hc. now apply IH.
Qed.

Lemma lstrip_all_space ws : all_space ws = true -> lstrip ws = "".
Proof.
  intros H. rewrite <- (append_empty_r ws). now rewrite lstrip_spaces.
Qed.

Lemma lstrip_split s :
  exists ws, all_space ws = true /\ s = ws +:+ lstrip s.
Proof.
  induction s as [|c s' (ws & Hws & Hs)]; cbn [lstrip].
  - exists ""%string. split; reflexivity.
  - destruct (Py_ISSPACE c) eqn:Hc.
    + exists (String c ws). cbn [all_space]. rewrite Hc, Hws, append_cons.
      split; [reflexivity | now rewrite <- Hs].
    + exists ""%string. split; reflexivity.
Qed.

Lemma lstrip_empty_all_space s : lstrip s = "" -> all_space s = true.
Proof.
  intros H. destruct (lstrip_split s) as (ws & Hws & Hs).
  rewrite H, append_empty_r in Hs. now subst.
Qed.

Lemma lstrip_nonspace c s : Py_ISSPACE c = false -> lstrip (String c s) = String c s.
Proof. intros H. cbn [lstrip]. now rewrite H. Qed.

Lemma digits_head b ds :
  digits b ds -> exists c d b', b = String c b' /\ digit_of c = Some d.
Proof. intros H. destruct H; eauto. Qed.

(** The scanning loop reads a digit run to its end. *)
Lemma scan_digits_complete b ds :
  digits b ds ->
  forall ws prev acc cnt,
    all_space ws = true ->
    scan_digits (b +:+ ws) prev acc cnt
    = Some (fold_left shift_in ds acc, cnt + Z.of_nat (length ds), ws).
Proof.
  induction 1 as [c d Hd | c d b ds Hd Hb IH | c d b ds Hd Hb IH];
    intros ws prev acc cnt Hws; rewrite ?append_cons, ?append_empty_l;
    cbn [scan_digits]; rewrite (digit_not_underscore _ _ Hd), Hd.
  - cbn [fold_left length]. replace (cnt + Z.of_nat 1) with (cnt + 1) by lia.
    destruct ws as [|x ws]; cbn [scan_digits]; [reflexivity |].
    cbn [all_space] in Hws. apply andb_true_iff in Hws as [Hx _].
    now rewrite (space_not_underscore _ Hx), (space_not_digit _ Hx).
  - rewrite (IH ws false _ _ Hws). cbn [fold_left length].
    do 3 f_equal. lia.
  - change (is_underscore "_") with true. cbn iota.
    rewrite (IH ws true _ _ Hws). cbn [fold_left length].
    do 3 f_equal. lia.
Qed.

(** Whatever the scanning loop accepts is a digit run, after at most one
    leading underscore, or nothing at all. *)
Lemma scan_digits_sound s :
  forall prev acc cnt v k rest,
    scan_digits s prev acc cnt = Some (v, k, rest) ->
    (s = rest /\ prev = false /\ v = acc /\ k = cnt)
    \/ exists u b ds,
         s = u +:+ b +:+ rest /\ digits b ds
         /\ (u = ""%string \/ (u = "_"%string /\ prev = false))
         /\ v = fold_left shift_in ds acc /\ k = cnt + Z.of_nat (length ds).
Proof.
  induction s as [|c s IH]; intros prev acc cnt v k rest; cbn [scan_digits].
  - destruct prev; [discriminate |]. intros [= <- <- <-]. left. auto.
  - destruct (is_underscore c) eqn:Hu.
    + destruct prev; [discriminate |]. intros H.
      apply IH in H as [(_ & ? & _) | (u & b & ds & -> & Hb & Hu' & -> & ->)];
        [discriminate |].
      destruct Hu' as [-> | (_ & ?)]; [| discriminate].
      right. exists "_"%string, b, ds.
      unfold is_underscore in Hu. apply Ascii.eqb_eq in Hu. subst c.
      repeat split; auto.
    + destruct (digit_of c) as [d|] eqn:Hd.
      * intros H.
        apply IH in H as [(-> & _ & -> & ->) | (u & b & ds & -> & Hb & Hu' & -> & ->)];
          right.
        -- exists ""%string, (String c ""), [d]. repeat split; auto.
           now apply digits_last.
        -- destruct Hu' as [-> | (-> & _)].
           ++ exists ""%string, (String c b), (d :: ds). cbn [length fold_left].
              repeat split; auto; [now apply digits_next | lia].
           ++ exists ""%string, (String c (String "_" b)), (d :: ds).
              cbn [length fold_left].
              repeat split; auto; [now apply digits_group | lia].
      * destruct prev; [discriminate |]. intros [= <- <- <-]. left. auto.
Qed.

Lemma from_string_raises lim s e : from_string lim s = Raise e -> e = ValueError.
Proof.
  unfold from_string. destruct (split_sign (lstrip s)) as [neg body].
  destruct (starts_with_underscore body); [congruence |].
  destruct (scan_digits body false 0 0) as [[[v k] rest]|]; [| congruence].
  destruct (k =? 0); [congruence |].
  destruct (over_limit lim k); [congruence |].
  destruct (lstrip rest); [discriminate | congruence].
Qed.

Lemma split_sign_sound s neg body :
  split_sign s = (neg, body) -> exists sg, sign sg neg /\ s = sg +:+ body.
Proof.
  unfold split_sign. destruct s as [|c r].
  - intros [= <- <-]. exists ""%string. split; [constructor | reflexivity].
  - destruct (Ascii.eqb_spec c "+") as [-> | _].
    + intros [= <- <-]. exists "+"%string. split; [constructor | reflexivity].
    + destruct (Ascii.eqb_spec c "-") as [-> | _]; intros [= <- <-].
      * exists "-"%string. split; [constructor | reflexivity].
      * exists ""%string. split; [constructor | reflexivity].
Qed.

(** Soundness: a string [int] accepts is a literal, of the value returned,
    and within the digit limit. *)
Lemma from_string_sound lim s n :
  from_string lim s = Return n ->
  exists k, decimal_literal s n k /\ over_limit lim k = false.
Proof.
  unfold from_string.
  destruct (lstrip_split s) as (ws1 & Hws1 & Hs).
  destruct (split_sign (lstrip s)) as [neg body] eqn:Hsign.
  apply split_sign_sound in Hsign as (sg & Hsg & Hbody).
  destruct (starts_with_underscore body) eqn:Hus; [discriminate |].
  destruct (scan_digits body false 0 0) as [[[v k] rest]|] eqn:Hscan; [| discriminate].
  destruct (k =? 0) eqn:Hk; [discriminate |].
  destruct (over_limit lim k) eqn:Hlim; [discriminate |].
  destruct (lstrip rest) eqn:Hrest; [| discriminate].
  intros [= <-]. apply Z.eqb_neq in Hk.
  apply scan_digits_sound in Hscan
    as [(_ & _ & _ & ?) | (u & b & ds & Hb' & Hb & Hu & -> & ->)]; [lia |].
  destruct Hu as [-> | (-> & _)]; [| subst body; discriminate Hus].
  exists (0 + Z.of_nat (length ds)). split; [| exact Hlim].
  rewrite Hs, Hbody, Hb', append_empty_l, Z.add_0_l.
  apply literal; auto. now apply lstrip_empty_all_space.
Qed.

(** Completeness: [int] accepts every literal within the digit limit and
    returns its value. *)
Lemma from_string_complete lim s n k :
  decimal_literal s n k -> over_limit lim k = false -> from_string lim s = Return n.
Proof.
  intros [ws1 sg neg b ds ws2 Hws1 Hsg Hb Hws2] Hlim.
  unfold from_string. rewrite (lstrip_spaces _ _ Hws1).
  destruct (digits_head _ _ Hb) as (c & d & b' & Eb & Hd).
  assert (Hsplit : split_sign (lstrip (sg +:+ b +:+ ws2)) = (neg, b +:+ ws2)).
  { destruct (digit_not_sign _ _ Hd) as [Hp Hm].
    destruct Hsg; subst b; rewrite ?append_cons, ?append_empty_l.
    - rewrite (lstrip_nonspace _ _ (digit_not_space _ _ Hd)).
      unfold split_sign. now rewrite Hp, Hm.
    - reflexivity.
    - reflexivity. }
  rewrite Hsplit.
  assert (Hus : starts_with_underscore (b +:+ ws2) = false).
  { subst b. rewrite append_cons. cbn [starts_with_underscore].
    now apply digit_not_underscore with d. }
  rewrite Hus, (scan_digits_complete _ _ Hb _ false 0 0 Hws2).
  rewrite Z.add_0_l.
  assert (Hlen : (Z.of_nat (length ds) =? 0) = false).
  { apply Z.eqb_neq. destruct Hb; cbn [length]; lia. }
  rewrite Hlen, Hlim, (lstrip_all_space _ Hws2). reflexivity.
Qed.

(** *** Strings in any script *)

Lemma all_chars_app p a b :
  all_chars p (a +:+ b) = all_chars p a && all_chars p b.
Proof.
  induction a as [|c a' IH]; [reflexivity |].
  rewrite append_cons. cbn [all_chars]. now rewrite IH, andb_assoc.
Qed.

Lemma all_chars_impl (p q : ascii -> bool) s :
  (forall c, p c = true -> q c = true) -> all_chars p s = true -> all_chars q s = true.
Proof.
  intros Hpq. induction s as [|c s' IH]; [reflexivity |]. cbn [all_chars].
  intros H. apply andb_true_iff in H as [Hc Hs]. now rewrite (Hpq c Hc), IH.
Qed.

Lemma digit_literal_char c d : digit_of c = Some d -> literal_char c = true.
Proof.
  intros H. unfold literal_char. rewrite H.
  now rewrite orb_true_r.
Qed.

Lemma digits_literal_chars b ds : digits b ds -> all_chars literal_char b = true.
Proof.
  induction 1 as [c d Hd | c d b ds Hd Hb IH | c d b ds Hd Hb IH]; cbn [all_chars];
    rewrite (digit_literal_char _ _ Hd); [reflexivity | exact IH | exact IH].
Qed.

Lemma spaces_literal_chars ws : all_space ws = true -> all_chars literal_char ws = true.
Proof.
  induction ws as [|c ws' IH]; [reflexivity |]. cbn [all_space all_chars].
  intros H. apply andb_true_iff in H as [Hc Hws].
  unfold literal_char at 1. rewrite Hc. now apply IH.
Qed.

Lemma literal_chars s n k : decimal_literal s n k -> all_chars literal_char s = true.
Proof.
  intros [ws1 sg neg b ds ws2 Hws1 Hsg Hb Hws2].
  rewrite !all_chars_app, (spaces_literal_chars _ Hws1), (spaces_literal_chars _ Hws2),
    (digits_literal_chars _ _ Hb).
  destruct Hsg; reflexivity.
Qed.

Lemma literal_char_ascii c : literal_char c = true -> (byte c <? 128) = true.
Proof.
  destruct c as [[] [] [] [] [] [] [] []]; try reflexivity; intros H; discriminate H.
Qed.

Lemma all_chars_ascii s : all_chars (fun c => byte c <? 128) s = IS_ASCII s.
Proof. induction s as [|c s' IH]; [reflexivity |]. cbn. now rewrite IH. Qed.

(** A literal is ASCII text, which [int] reads as it stands. *)
Lemma literal_is_ascii s n k : decimal_literal s n k -> IS_ASCII s = true.
Proof.
  intros H. rewrite <- all_chars_ascii.
  apply (all_chars_impl literal_char); [apply literal_char_ascii |].
  exact (literal_chars _ _ _ H).
Qed.

Lemma from_unicode_complete lim s n k :
  decimal_literal s n k -> over_limit lim k = false -> from_unicode lim s = Return n.
Proof.
  intros Hlit Hlim. unfold from_unicode, TransformDecimalAndSpaceToASCII.
  rewrite (literal_is_ascii _ _ _ Hlit). now apply from_string_complete with k.
Qed.

Lemma from_unicode_raises lim s e : from_unicode lim s = Raise e -> e = ValueError.
Proof. apply from_string_raises. Qed.

Lemma chr_byte c : chr (byte c) = c.
Proof. unfold chr, byte. now rewrite N2Z.id, ascii_N_embedding. Qed.

Lemma ascii_image_ascii s : IS_ASCII s = true -> ascii_image s = s.
Proof.
  unfold ascii_image. induction s as [|c s' IH]; [reflexivity |].
  cbn [IS_ASCII]. intros H. apply andb_true_iff in H as [Hc Hs].
  cbn [utf8_decode]. cbv zeta. rewrite Hc. cbn [image_chars].
  now rewrite Hc, chr_byte, IH.
Qed.

(** Text made of a literal's characters has lost nothing in the
    transformation: it is the ASCII reading. *)
Lemma transform_chars_image (chars : list Z) :
  all_chars literal_char (transform_chars chars) = true ->
  transform_chars chars = image_chars chars.
Proof.
  induction chars as [|ch rest IH]; [reflexivity |]. cbn [transform_chars image_chars].
  destruct (ch <? 127) eqn:E127.
  - cbn [all_chars]. intros H. apply andb_true_iff in H as [_ H].
    apply Z.ltb_lt in E127.
    assert (E128 : (ch <? 128) = true) by (apply Z.ltb_lt; lia).
    now rewrite E128, (IH H).
  - apply Z.ltb_ge in E127.
    destruct (ch <? 128) eqn:E128.
    + apply Z.ltb_lt in E128. assert (ch = 127) by lia. subst ch.
      intros H. discriminate H.
    + destruct (Py_UNICODE_ISSPACE ch).
      * cbn [all_chars]. intros H. apply andb_true_iff in H as [_ H].
        now rewrite (IH H).
      * cbv zeta. destruct (Py_UNICODE_TODECIMAL ch <? 0).
        -- intros H. discriminate H.
        -- cbn [all_chars]. intros H. apply andb_true_iff in H as [_ H].
           now rewrite (IH H).
Qed.

(** Soundness in any script: what [int] accepts on a [str] is a literal in
    its ASCII reading, of the value returned. *)
Lemma from_unicode_sound lim s n :
  from_unicode lim s = Return n ->
  exists k, unicode_literal s n k /\ over_limit lim k = false.
Proof.
  unfold from_unicode, TransformDecimalAndSpaceToASCII, unicode_literal.
  destruct (IS_ASCII s) eqn:E; intros H.
  - rewrite (ascii_image_ascii _ E). now apply from_string_sound.
  - apply from_string_sound in H as (k & Hk & Hlim). exists k. split; [| exact Hlim].
    unfold ascii_image. rewrite <- transform_chars_image; [exact Hk |].
    exact (literal_chars _ _ _ Hk).
Qed.

Lemma unicode_literal_ascii s n k :
  decimal_literal s n k -> unicode_literal s n k.
Proof.
  intros H. unfold unicode_literal.
  now rewrite (ascii_image_ascii _ (literal_is_ascii _ _ _ H)).
Qed.

End PyIntFacts.

(** ** Rounding: the quotient and its six-digit text *)

Module PyFloatFacts.
Import PyFloat.

Lemma round_half_even_bound p q :
  0 <= p -> 0 < q ->
  0 <= round_half_even p q /\ Z.abs (2 * round_half_even p q * q - 2 * p) <= q.
Proof.
  intros Hp Hq. unfold round_half_even.
  pose proof (Z.div_mod p q ltac:(lia)) as Hdm.
  pose proof (Z.mod_pos_bound p q Hq) as Hr.
  assert (0 <= p / q) by (apply Z.div_pos; lia).
  set (f := p / q) in *. set (r := p mod q) in *.
  destruct (2 * r <? q) eqn:E1; [apply Z.ltb_lt in E1 | apply Z.ltb_ge in E1].
  - split; [lia | nia].
  - destruct (q <? 2 * r) eqn:E2; [apply Z.ltb_lt in E2 | apply Z.ltb_ge in E2].
    + split; [lia | nia].
    + destruct (Z.even f); split; try lia; nia.
Qed.

Lemma floor_log2_quot_bound a b :
  0 < a -> 0 < b -> a < 2 ^ 33 * b -> floor_log2_quot a b <= 32.
Proof.
  intros Ha Hb Hab. unfold floor_log2_quot.
  destruct (Z.log2_spec a Ha) as [Ha1 Ha2].
  destruct (Z.log2_spec b Hb) as [Hb1 Hb2].
  pose proof (Z.log2_nonneg a) as Hla. pose proof (Z.log2_nonneg b) as Hlb.
  set (L := Z.log2 a - Z.log2 b).
  destruct (b * 2 ^ Z.max 0 L <=? a * 2 ^ Z.max 0 (- L)) eqn:E.
  - apply Z.leb_le in E.
    destruct (Z_le_gt_dec L 32) as [|HL]; [assumption | exfalso].
    rewrite (Z.max_r 0 L), (Z.max_l 0 (- L)) in E by lia.
    assert (2 ^ 33 <= 2 ^ L) by (apply Z.pow_le_mono_r; lia).
    change (2 ^ 0) with 1 in E. nia.
  - destruct (Z_le_gt_dec L 33) as [|HL]; [lia | exfalso].
    assert (2 ^ (Z.log2 b + 34) <= 2 ^ Z.log2 a) by (apply Z.pow_le_mono_r; lia).
    replace (Z.log2 b + 34) with (Z.succ (Z.log2 b) + 33) in * by lia.
    rewrite Z.pow_add_r in * by lia.
    nia.
Qed.

(** Below [2^33] whole units the two roundings, to binary64 and then to six
    decimals, stay within one millionth of the quotient. *)
Lemma divide_then_format n b :
  0 < b -> Z.abs n < 2 ^ 33 * b ->
  exists x k,
    long_true_divide n b = Return x
    /\ 0 <= k
    /\ Z.abs (k * b - Z.abs n * 10 ^ 6) < b
    /\ format_f6 x = fixed6 (n <? 0) k.
Proof.
  intros Hb Hn. unfold long_true_divide.
  assert (Eb : (b =? 0) = false) by (apply Z.eqb_neq; lia).
  assert (Eb' : (b <? 0) = false) by (apply Z.ltb_ge; lia).
  rewrite Eb, Eb', xorb_false_r.
  destruct (n =? 0) eqn:En.
  - apply Z.eqb_eq in En. subst n.
    exists (Finite false 0 0), 0. repeat split; try reflexivity; cbn; lia.
  - apply Z.eqb_neq in En.
    rewrite (Z.abs_eq b) by lia.
    pose proof (floor_log2_quot_bound (Z.abs n) b ltac:(lia) Hb Hn) as HL.
    unfold MANT_DIG, MIN_EXP.
    set (e := Z.max (-1074) (floor_log2_quot (Z.abs n) b - (53 - 1))).
    assert (He : -1074 <= e <= -20) by (unfold e; lia).
    rewrite (Z.max_l 0 e), (Z.max_r 0 (- e)) by lia.
    assert (E0 : (0 <=? e) = false) by (apply Z.leb_gt; lia).
    rewrite E0. cbn [andb].
    change (2 ^ 0) with 1. rewrite Z.mul_1_r.
    set (P := 2 ^ (- e)).
    assert (HP : 2 ^ 20 <= P) by (apply Z.pow_le_mono_r; lia).
    assert (HP6 : 10 ^ 6 < P) by (eapply Z.lt_le_trans; [| exact HP]; reflexivity).
    set (m := round_half_even (Z.abs n * P) b).
    destruct (round_half_even_bound (Z.abs n * P) b ltac:(nia) Hb) as [Hm0 Hm].
    fold m in Hm0, Hm.
    exists (Finite (n <? 0) m e). cbn [format_f6].
    rewrite (Z.max_l 0 e), (Z.max_r 0 (- e)) by lia.
    change (2 ^ 0) with 1. rewrite Z.mul_1_r. fold P.
    set (k := round_half_even (m * 10 ^ 6) P).
    destruct (round_half_even_bound (m * 10 ^ 6) P ltac:(nia) ltac:(lia)) as [Hk0 Hk].
    fold k in Hk0, Hk.
    exists k. repeat split; try assumption.
    set (M6 := 10 ^ 6) in *. set (a := Z.abs n) in *.
    assert (Hid : 2 * P * (k * b - a * M6)
                  = b * (2 * k * P - 2 * (m * M6)) + M6 * (2 * m * b - 2 * (a * P)))
      by ring.
    assert (0 < M6) by (unfold M6; lia).
    assert (Z.abs (2 * P * (k * b - a * M6)) < 2 * P * b).
    { rewrite Hid.
      eapply Z.le_lt_trans; [apply Z.abs_triangle |].
      rewrite !Z.abs_mul, (Z.abs_eq b), (Z.abs_eq M6) by lia.
      nia. }
    rewrite Z.abs_mul, (Z.abs_eq (2 * P)) in * by lia.
    nia.
Qed.

(** The model against known binary64 values: [1/10] is
    [0x1.999999999999ap-4], a quotient of [2^1024] overflows, the largest
    finite double does not, and quotients below the least subnormal round to
    zero or to it. *)
Example true_divide_values :
  long_true_divide 1 10 = Return (Finite false 7205759403792794 (-56))
  /\ long_true_divide (-1) 10 = Return (Finite true 7205759403792794 (-56))
  /\ long_true_divide (10 ^ 400) (10 ^ 6) = Raise OverflowError
  /\ long_true_divide (2 ^ 1024 - 2 ^ 970) 1 = Raise OverflowError
  /\ long_true_divide (2 ^ 1024 - 2 ^ 970 - 1) 1
     = Return (Finite false (2 ^ 53 - 1) 971)
  /\ long_true_divide 1 (2 ^ 1075) = Return (Finite false 0 (-1074))
  /\ long_true_divide 3 (2 ^ 1075) = Return (Finite false 2 (-1074)).
Proof. repeat split; vm_compute; reflexivity. Qed.

(** Formatting keeps the sign of a negative value that rounds to zero, and
    ties ([2^-7] and [3 * 2^-7] end in a 5 at the seventh decimal) go to the
    even neighbour. *)
Example format_f6_values :
  format_f6 (Finite true 1 (-70)) = "-0.000000"%string
  /\ format_f6 (Finite false 1 (-1)) = "0.500000"%string
  /\ format_f6 (Finite false 1 (-7)) = "0.007812"%string
  /\ format_f6 (Finite false 3 (-7)) = "0.023438"%string
  /\ format_f6 (Finite false 5 971) = fixed6 false (5 * 2 ^ 971 * 10 ^ 6).
Proof. repeat split; vm_compute; reflexivity. Qed.

End PyFloatFacts.

(** ** [format_balance] *)

Lemma over_limit_off k : PyInt.over_limit 0 k = false.
Proof.
  unfold PyInt.over_limit. change (0 <? 0) with false.
  now rewrite andb_false_r.
Qed.

Lemma pow10_pos (d : N) : 0 < 10 ^ Z.of_N d.
Proof. apply Z.pow_pos_nonneg; lia. Qed.

(** A literal of magnitude below [2^33 * 10^decimals] is converted, divided
    and formatted without an exception, and the text is a rendering of the
    quotient. *)
Lemma format_balance_within
    (max_str_digits : Z) (s : string) (n k : Z) (decimals : N) :
  Literal.decimal_literal s n k ->
  PyInt.over_limit max_str_digits k = false ->
  Z.abs n < 2 ^ 33 * 10 ^ Z.of_N decimals ->
  exists out,
    format_balance max_str_digits (JStr s) decimals = Return out
    /\ rendering n decimals out.
Proof.
  intros Hlit Hlim Hn.
  unfold format_balance. cbn [py_int].
  rewrite (PyIntFacts.from_unicode_complete _ _ _ _ Hlit Hlim).
  destruct (PyFloatFacts.divide_then_format n _ (pow10_pos decimals) Hn)
    as (x & m & Hdiv & Hm0 & Hm & Hfmt).
  exists (PyFloat.format_f6 x). split.
  - cbn. rewrite Hdiv. reflexivity.
  - exists m. auto.
Qed.

(** With at most six decimals the rendering is unique: the exact value. *)
Lemma rendering_exact (n : Z) (decimals : N) (out : string) :
  (decimals <= 6)%N ->
  rendering n decimals out ->
  out = PyFloat.fixed6 (n <? 0) (Z.abs n * 10 ^ (6 - Z.of_N decimals)).
Proof.
  intros Hd (k & Hk0 & Hk & ->). f_equal.
  set (d := Z.of_N decimals) in *.
  assert (Hd' : 0 <= d <= 6) by (unfold d; lia).
  assert (Hpos : 0 < 10 ^ d) by (apply Z.pow_pos_nonneg; lia).
  assert (Hsplit : 10 ^ 6 = 10 ^ (6 - d) * 10 ^ d).
  { rewrite <- Z.pow_add_r by lia. f_equal. lia. }
  rewrite Hsplit in Hk.
  replace (k * 10 ^ d - Z.abs n * (10 ^ (6 - d) * 10 ^ d))
    with ((k - Z.abs n * 10 ^ (6 - d)) * 10 ^ d) in Hk by ring.
  rewrite Z.abs_mul, (Z.abs_eq (10 ^ d)) in Hk by lia.
  assert (Z.abs (k - Z.abs n * 10 ^ (6 - d)) < 1) by nia.
  lia.
Qed.

(** At 6 decimals, below [2^33] whole tokens, the text is the exact value. *)
Corollary format_balance_six_decimals
    (max_str_digits : Z) (s : string) (n k : Z) :
  Literal.decimal_literal s n k ->
  PyInt.over_limit max_str_digits k = false ->
  Z.abs n < 2 ^ 33 * 10 ^ 6 ->
  format_balance max_str_digits (JStr s) 6
  = Return (PyFloat.fixed6 (n <? 0) (Z.abs n)).
Proof.
  intros Hlit Hlim Hn.
  destruct (format_balance_within max_str_digits s n k 6 Hlit Hlim Hn)
    as (out & -> & Hout).
  apply rendering_exact in Hout; [| lia].
  rewrite Hout. change (10 ^ (6 - Z.of_N 6)) with 1. now rewrite Z.mul_1_r.
Qed.

(** C1, as amended.  For every decimal-integer literal that [int] converts
    (its digit count within the interpreter's conversion limit), of value [n]
    with [|n| < 2^33 * 10^decimals], and for every decimals count (6 and 18
    among them), [format_balance] returns a rendering of [n / 10^decimals]
    with six fractional digits: the value itself where six digits hold it
    (always so for 6 decimals), one of its two six-digit neighbours
    otherwise. *)
Theorem format_balance_rendering
    (max_str_digits : Z) (s : string) (n k : Z) (decimals : N) :
  Literal.decimal_literal s n k ->
  PyInt.over_limit max_str_digits k = false ->
  Z.abs n < 2 ^ 33 * 10 ^ Z.of_N decimals ->
  exists out,
    format_balance max_str_digits (JStr s) decimals = Return out
    /\ rendering n decimals out.
Proof. exact (format_balance_within max_str_digits s n k decimals). Qed.

Lemma format_balance_rendering_witness :
  Literal.decimal_literal "1000000" 1000000 7
  /\ PyInt.over_limit 4300 7 = false
  /\ Z.abs 1000000 < 2 ^ 33 * 10 ^ Z.of_N 6
  /\ exists out,
       format_balance 4300 (JStr "1000000") 6 = Return out
       /\ rendering 1000000 6 out.
Proof.
  assert (H : Literal.decimal_literal "1000000" 1000000 7).
  { apply (Literal.literal "" "" false "1000000" [1; 0; 0; 0; 0; 0; 0] "").
    - reflexivity.
    - constructor.
    - repeat (constructor; try reflexivity).
    - reflexivity. }
  split; [exact H |].
  split; [reflexivity |].
  split; [vm_compute; reflexivity |].
  apply (format_balance_rendering 4300 "1000000" 1000000 7 6 H);
    [reflexivity | vm_compute; reflexivity].
Defined.

(** C1, as the specification states it, fails: 8589934592.000001 USDT, a
    valid literal at 6 decimals, comes out as [8589934592.000002], which is
    not a rendering of the exact value. *)
Lemma format_balance_inexact :
  (exists k, Literal.decimal_literal "8589934592000001" 8589934592000001 k)
  /\ (forall max_str_digits,
        format_balance max_str_digits (JStr "8589934592000001") 6
        = Return "8589934592.000002"%string)
  /\ ~ rendering 8589934592000001 6 "8589934592.000002".
Proof.
  split; [| split].
  - destruct (PyIntFacts.from_string_sound 0 "8589934592000001" 8589934592000001)
      as (k & Hk & _); [vm_compute; reflexivity | eauto].
  - intros lim. vm_compute. reflexivity.
  - intros (k & Hk0 & Hk & Hout).
    assert (k = 8589934592000001) by lia. subst k.
    vm_compute in Hout. discriminate Hout.
Qed.

(** C5.  [format_balance("123456789000000000000", 18)] is ["123.456789"] and
    [format_balance("1000000", 6)] is ["1.000000"], whatever the interpreter's
    conversion limit. *)
Theorem format_balance_examples (max_str_digits : Z) :
  format_balance max_str_digits (JStr "123456789000000000000") 18
  = Return "123.456789"%string
  /\ format_balance max_str_digits (JStr "1000000") 6 = Return "1.000000"%string.
Proof. split; vm_compute; reflexivity. Qed.

(** C6.  On every string that is not a decimal-integer literal,
    [format_balance] returns ["Invalid balance"]; it does not raise.  A
    literal is taken as [int] takes it: white space, an optional sign, and
    digits with single underscores between them, the white space and the
    decimal digits of any script of Unicode included. *)
Theorem format_balance_invalid (max_str_digits : Z) (s : string) (decimals : N) :
  (~ exists n k, Literal.unicode_literal s n k) ->
  format_balance max_str_digits (JStr s) decimals = Return "Invalid balance"%string.
Proof.
  intros Hnot. unfold format_balance. cbn [py_int].
  destruct (PyInt.from_unicode max_str_digits s) as [n | e] eqn:E.
  - exfalso. apply Hnot.
    destruct (PyIntFacts.from_unicode_sound _ _ _ E) as (k & Hk & _). eauto.
  - apply PyIntFacts.from_unicode_raises in E. subst e. reflexivity.
Qed.

Lemma format_balance_invalid_witness :
  (~ exists n k, Literal.unicode_literal "not-a-number" n k)
  /\ format_balance 4300 (JStr "not-a-number") 18 = Return "Invalid balance"%string.
Proof.
  assert (H : ~ exists n k, Literal.unicode_literal "not-a-number" n k).
  { intros (n & k & Hlit). unfold Literal.unicode_literal in Hlit.
    pose proof (PyIntFacts.from_string_complete 0 _ _ _ Hlit (over_limit_off k)) as E.
    vm_compute in E. discriminate E. }
  split; [exact H |].
  apply (format_balance_invalid 4300 "not-a-number" 18 H).
Defined.

(** The digits of other scripts are digits to [int], and so to
    [format_balance]: the Arabic-Indic digit three is a balance of 3, and a
    no-break space before an ASCII digit is white space. *)
Example format_balance_other_scripts :
  (forall max_str_digits,
     format_balance max_str_digits
       (JStr (String "217" (String "163" ""))) 0 = Return "3.000000"%string)
  /\ (forall max_str_digits,
        format_balance max_str_digits
          (JStr (String "194" (String "160" "5"))) 0 = Return "5.000000"%string)
  /\ Literal.ascii_image (String "217" (String "163" "")) = "3"%string.
Proof. repeat split; intros; vm_compute; reflexivity. Qed.

(** ** [format_gas_prices] *)

Lemma includes_refl (s : string) : includes s s.
Proof. exists ""%string, ""%string. now rewrite append_empty_l, append_empty_r. Qed.

Lemma concat_cons (sep l l' : string) (ls : list string) :
  String.concat sep (l :: l' :: ls) = l +:+ sep +:+ String.concat sep (l' :: ls).
Proof. reflexivity. Qed.

Lemma includes_concat (sep line : string) (lines : list string) :
  In line lines -> includes line (String.concat sep lines).
Proof.
  induction lines as [|l [|l' ls] IH]; [intros [] | |].
  - intros [-> | []]. apply includes_refl.
  - rewrite concat_cons. intros [-> | H].
    + exists ""%string, (sep +:+ String.concat sep (l' :: ls)). reflexivity.
    + destruct (IH H) as (before & after & E).
      exists (l +:+ sep +:+ before), after.
      now rewrite E, !append_assoc.
Qed.

Section GasPrices.

Variable repr : pyval -> string.

Lemma gas_price_lines_fixed (r : pydict) (line : string) :
  In line
    [ nl +:+ "=== Current Gas Prices (Gwei) ===";
      "Safe Gas Price:    "
        +:+ py_str repr (dict_get_default r "SafeGasPrice" (JStr "N/A")) +:+ " Gwei";
      "Propose Gas Price: "
        +:+ py_str repr (dict_get_default r "ProposeGasPrice" (JStr "N/A")) +:+ " Gwei";
      "Fast Gas Price:    "
        +:+ py_str repr (dict_get_default r "FastGasPrice" (JStr "N/A")) +:+ " Gwei";
      "Last Block:        "
        +:+ py_str repr (dict_get_default r "LastBlock" (JStr "N/A")) ]%string ->
  In line (gas_price_lines repr r).
Proof.
  intros H. unfold gas_price_lines.
  destruct (negb (is_None (dict_get r "suggestBaseFee"))); [| exact H].
  apply in_or_app. now left.
Qed.

Lemma gas_field_line (r : pydict) (field label suffix : string) :
  In (field, label, suffix) gas_fields ->
  In (label +:+ py_str repr (dict_get_default r field (JStr "N/A")) +:+ suffix)
    (gas_price_lines repr r).
Proof.
  intros H. apply gas_price_lines_fixed.
  cbn [In gas_fields] in H.
  destruct H as [[= <- <- <-] | [[= <- <- <-] | [[= <- <- <-] | [[= <- <- <-] | []]]]];
    cbn [In]; rewrite ?append_empty_r; tauto.
Qed.

Lemma fixed_line_not_base_fee (r : pydict) (line : string) :
  In line
    [ nl +:+ "=== Current Gas Prices (Gwei) ===";
      "Safe Gas Price:    "
        +:+ py_str repr (dict_get_default r "SafeGasPrice" (JStr "N/A")) +:+ " Gwei";
      "Propose Gas Price: "
        +:+ py_str repr (dict_get_default r "ProposeGasPrice" (JStr "N/A")) +:+ " Gwei";
      "Fast Gas Price:    "
        +:+ py_str repr (dict_get_default r "FastGasPrice" (JStr "N/A")) +:+ " Gwei";
      "Last Block:        "
        +:+ py_str repr (dict_get_default r "LastBlock" (JStr "N/A")) ]%string ->
  ~ base_fee_line line.
Proof.
  intros H (text & E). cbn [In] in H.
  destruct H as [<- | [<- | [<- | [<- | [<- | []]]]]];
    unfold nl in E; rewrite !append_cons in E; discriminate E.
Qed.

Lemma base_fee_line_iff (r : pydict) :
  (exists line, In line (gas_price_lines repr r) /\ base_fee_line line)
  <-> exists v, r !! "suggestBaseFee"%string = Some v /\ v <> JNull.
Proof.
  unfold gas_price_lines, dict_get.
  destruct (r !! "suggestBaseFee"%string) as [v|] eqn:E; cbn [default].
  - destruct v; cbn [is_None negb];
      try (split;
           [ intros _; eexists; split; [reflexivity | discriminate]
           | intros _; eexists; split;
             [ apply in_or_app; right; left; reflexivity | eexists; reflexivity ] ]).
    split.
    + intros (line & Hin & Hline). now apply fixed_line_not_base_fee in Hin.
    + intros (v & [= <-] & Hv). now destruct Hv.
  - cbn [is_None negb]. split.
    + intros (line & Hin & Hline). now apply fixed_line_not_base_fee in Hin.
    + intros (v & [=] & _).
Qed.

End GasPrices.

(** C7, as amended.  For every response mapping whose [result] is a mapping,
    [format_gas_prices] returns the joined lines; each of SafeGasPrice,
    ProposeGasPrice, FastGasPrice and LastBlock that holds a string shows it
    verbatim on its line, and each that is missing shows ["N/A"]; the
    suggested-base-fee line is there if and only if the result holds a
    suggestBaseFee that is not null. *)
Theorem format_gas_prices_table (repr : pyval -> string) (data r : pydict) :
  data !! "result"%string = Some (JObj r) ->
  exists out,
    format_gas_prices repr (Some data) = Return out
    /\ out = String.concat nl (gas_price_lines repr r)
    /\ (forall field label suffix,
          In (field, label, suffix) gas_fields ->
          (forall v, r !! field = Some (JStr v) ->
                     includes (label +:+ v +:+ suffix) out)
          /\ (r !! field = None -> includes (label +:+ "N/A" +:+ suffix) out))
    /\ ((exists line, In line (gas_price_lines repr r) /\ base_fee_line line)
        <-> exists v, r !! "suggestBaseFee"%string = Some v /\ v <> JNull).
Proof.
  intros Hres. eexists. split; [| split; [reflexivity | split]].
  - unfold format_gas_prices, truthy, dict_of, dict_contains, dict_item.
    change (default ∅ (Some data)) with data. rewrite Hres.
    rewrite bool_decide_eq_false_2 by (intros ->; now rewrite lookup_empty in Hres).
    rewrite bool_decide_eq_true_2 by eauto.
    reflexivity.
  - intros field label suffix Hf.
    pose proof (gas_field_line repr r field label suffix Hf) as Hin.
    apply (includes_concat nl) in Hin.
    unfold dict_get_default in Hin.
    split; [intros v Hv | intros Hv]; rewrite Hv in Hin; exact Hin.
  - apply base_fee_line_iff.
Qed.

Lemma format_gas_prices_table_witness :
  let r : pydict :=
    {[ "SafeGasPrice"%string := JStr "20"; "ProposeGasPrice"%string := JStr "22";
       "FastGasPrice"%string := JStr "24"; "LastBlock"%string := JStr "100" ]} in
  let data : pydict := {[ "status"%string := JStr "1"; "result"%string := JObj r ]} in
  let repr : pyval -> string := fun _ => ""%string in
  data !! "result"%string = Some (JObj r)
  /\ exists out,
       format_gas_prices repr (Some data) = Return out
       /\ out = String.concat nl (gas_price_lines repr r)
       /\ (forall field label suffix,
             In (field, label, suffix) gas_fields ->
             (forall v, r !! field = Some (JStr v) ->
                        includes (label +:+ v +:+ suffix) out)
             /\ (r !! field = None -> includes (label +:+ "N/A" +:+ suffix) out))
       /\ ((exists line, In line (gas_price_lines repr r) /\ base_fee_line line)
           <-> exists v, r !! "suggestBaseFee"%string = Some v /\ v <> JNull).
Proof.
  intros r data repr.
  assert (H : data !! "result"%string = Some (JObj r)) by (vm_compute; reflexivity).
  split; [exact H |].
  apply (format_gas_prices_table repr data r H).
Defined.

(** C7, as the specification states it, fails on the base-fee line: a result
    that contains [suggestBaseFee] with the value null gets the five fixed
    lines and no sixth. *)
Lemma format_gas_prices_null_base_fee :
  let r : pydict := {[ "suggestBaseFee"%string := JNull ]} in
  let data : pydict := {[ "status"%string := JStr "1"; "result"%string := JObj r ]} in
  let out : string :=
    nl +:+ "=== Current Gas Prices (Gwei) ===" +:+ nl
    +:+ "Safe Gas Price:    N/A Gwei" +:+ nl
    +:+ "Propose Gas Price: N/A Gwei" +:+ nl
    +:+ "Fast Gas Price:    N/A Gwei" +:+ nl
    +:+ "Last Block:        N/A" in
  is_Some (r !! "suggestBaseFee"%string)
  /\ (forall repr, format_gas_prices repr (Some data) = Return out)
  /\ ~ includes "Suggested Base Fee" out.
Proof.
  intros r data out. split; [| split].
  - exists JNull. vm_compute. reflexivity.
  - intros repr. vm_compute. reflexivity.
  - intros H. apply includes_includesb in H. vm_compute in H. discriminate H.
Qed.

(** ** The client operations *)

Section Client.

Variable repr : pyval -> string.
Variable net : list event -> request -> http_outcome.

Lemma run_call_fetch (c : call) :
  run_call repr net c = fetch repr net (params_of c) (success_line_of c).
Proof. destruct c; reflexivity. Qed.

Lemma raise_for_status_spec (r : response) :
  (400 <= status_code r < 600 /\ exists msg, raise_for_status r = Raise (RequestException msg))
  \/ (~ (400 <= status_code r < 600) /\ raise_for_status r = Return tt).
Proof.
  unfold raise_for_status.
  destruct ((400 <=? status_code r) && (status_code r <? 500)) eqn:E1.
  - left. apply andb_true_iff in E1 as [H1 H2].
    apply Z.leb_le in H1. apply Z.ltb_lt in H2. split; [lia | eauto].
  - destruct ((500 <=? status_code r) && (status_code r <? 600)) eqn:E2.
    + left. apply andb_true_iff in E2 as [H1 H2].
      apply Z.leb_le in H1. apply Z.ltb_lt in H2. split; [lia | eauto].
    + right. split; [| reflexivity].
      apply andb_false_iff in E1. apply andb_false_iff in E2.
      rewrite !Z.leb_gt, !Z.ltb_ge in *. lia.
Qed.

(** One run of an operation, path by path. *)
Lemma fetch_run (c : call) (w : world) :
  let w1 := after w [Sent (request_of c w)] in
  run_call repr net c w =
  match net (trace w) (request_of c w) with
  | TransportError msg =>
      (Return None, after w1 [Printed ("✗ Request failed: " +:+ msg)])
  | Responded r =>
      match (_ ← raise_for_status r; data ← response_json r; as_dict data) with
      | Return d =>
          if eq_str (dict_get d "status") "1" then
            (Return (Some d), after w1 [Printed (success_line_of c)])
          else
            (Return None,
             after w1
               [Printed ("✗ API returned error: "
                         +:+ py_str repr
                               (dict_get_default d "message" (JStr "Unknown error")))])
      | Raise (RequestException msg) | Raise (RequestsJSONDecodeError msg) =>
          (Return None, after w1 [Printed ("✗ Request failed: " +:+ msg)])
      | Raise (JSONDecodeError msg) =>
          (Return None, after w1 [Printed ("✗ Failed to parse JSON response: " +:+ msg)])
      | Raise e => (Raise e, w1)
      end
  end.
Proof.
  rewrite run_call_fetch.
  unfold fetch, try_except, bindM, get_self, Session_get, lift, request_of, after.
  cbn [self trace].
  destruct (net _ _) as [msg | r]; [reflexivity |].
  destruct (raise_for_status r) as [[] | e]; cbn.
  - destruct (response_json r) as [v | e]; cbn.
    + destruct (as_dict v) as [d | e]; cbn.
      * destruct (eq_str (dict_get d "status") "1"); reflexivity.
      * destruct e; reflexivity.
    + destruct e; reflexivity.
  - destruct e; reflexivity.
Qed.

Lemma after_after (w : world) (evs evs' : list event) :
  after (after w evs) evs' = after w (evs ++ evs').
Proof. unfold after. cbn [self trace]. now rewrite app_assoc. Qed.

Lemma requests_of_app (tr tr' : list event) :
  requests_of (tr ++ tr') = requests_of tr ++ requests_of tr'.
Proof.
  induction tr as [|[line | r | f] tr IH]; cbn [app requests_of];
    [reflexivity | | | ]; now rewrite IH.
Qed.

Lemma requests_of_printed (evs : list event) :
  (forall ev, In ev evs -> exists line, ev = Printed line) -> requests_of evs = [].
Proof.
  induction evs as [|ev evs IH]; [reflexivity |].
  intros H. destruct (H ev (or_introl eq_refl)) as (line & ->).
  cbn [requests_of]. apply IH. intros ev' Hin. apply H. now right.
Qed.

(** What a run leaves behind: the request, then printed lines only; the
    client object is the one it started from. *)
Lemma run_call_world (c : call) (w : world) :
  exists evs,
    snd (run_call repr net c w) = after w (Sent (request_of c w) :: evs)
    /\ forall ev, In ev evs -> exists line, ev = Printed line.
Proof.
  pose proof (fetch_run c w) as E. cbv zeta in E. rewrite E. clear E.
  assert (Hone : forall line : string,
            forall ev, In ev [Printed line] -> exists line', ev = Printed line').
  { intros line ev [<- | []]. eauto. }
  assert (Hnone : forall ev : event, In ev [] -> exists line', ev = Printed line').
  { intros ev []. }
  destruct (net _ _) as [msg | r].
  - eexists. cbn [snd]. rewrite after_after. split; [reflexivity | apply Hone].
  - destruct (_ ← raise_for_status r; data ← response_json r; as_dict data)
      as [d | e].
    + destruct (eq_str _ _); eexists; cbn [snd]; rewrite after_after;
        (split; [reflexivity | apply Hone]).
    + destruct e; eexists; cbn [snd]; rewrite ?after_after;
        try (split; [reflexivity | apply Hone]);
        (rewrite <- (app_nil_r [Sent _]) at 1; split; [reflexivity | apply Hnone]).
Qed.

Lemma run_call_self (c : call) (w : world) :
  self (snd (run_call repr net c w)) = self w.
Proof. destruct (run_call_world c w) as (evs & -> & _). reflexivity. Qed.

Lemma run_call_requests (c : call) (w : world) :
  requests_of (trace (snd (run_call repr net c w)))
  = requests_of (trace w) ++ [request_of c w].
Proof.
  destruct (run_call_world c w) as (evs & -> & Hevs).
  unfold after. cbn [trace]. rewrite requests_of_app. cbn [requests_of].
  now rewrite (requests_of_printed evs Hevs).
Qed.

Lemma eq_str_status (d : pydict) :
  eq_str (dict_get d "status") "1" = true <-> d !! "status"%string = Some (JStr "1").
Proof.
  unfold dict_get. destruct (d !! "status"%string) as [v|]; cbn.
  - destruct v; cbn; try (split; [discriminate | intros [=]]).
    rewrite String.eqb_eq. split; [now intros -> | now intros [= ->]].
  - split; discriminate.
Qed.

Lemma decodes_to_run (r : response) (v : pyval) :
  decodes_to (Responded r) v ->
  (_ ← raise_for_status r; data ← response_json r; as_dict data) = as_dict v.
Proof.
  intros [Hcode Hbody].
  destruct (raise_for_status_spec r) as [[? _] | [_ ->]]; [contradiction |].
  cbn. unfold response_json. now rewrite Hbody.
Qed.

(** Where the three steps before the status test end. *)
Lemma decode_chain_spec (r : response) :
  match (_ ← raise_for_status r; data ← response_json r; as_dict data) with
  | Return d => decodes_to (Responded r) (JObj d)
  | Raise (RequestException _) => 400 <= status_code r < 600
  | Raise (RequestsJSONDecodeError _) | Raise (JSONDecodeError _) =>
      exists legacy msg, json_body r = Undecodable legacy msg
  | Raise AttributeError =>
      exists v, decodes_to (Responded r) v /\ forall d, v <> JObj d
  | Raise ValueError => ~ (400 <= status_code r < 600) /\ json_body r = Overlong
  | Raise RecursionError => ~ (400 <= status_code r < 600) /\ json_body r = TooDeep
  | Raise _ => False
  end.
Proof.
  destruct (raise_for_status_spec r) as [[Hcode (msg & ->)] | [Hcode ->]]; cbn;
    [exact Hcode |].
  unfold response_json, decodes_to.
  destruct (json_body r) as [v | legacy msg | |]; cbn.
  - destruct v; cbn; try (eexists; split; [split; [exact Hcode | reflexivity] | discriminate]).
    split; [exact Hcode | reflexivity].
  - destruct legacy; eauto.
  - auto.
  - auto.
Qed.

End Client.




(** The decoder's other two errors are neither a [RequestException] nor a
    [JSONDecodeError]: a 200 answer on whose body [json.loads] gives up, for
    an integer of too many digits or for a nesting too deep, makes the
    operation raise, with nothing printed after the request. *)
Lemma operations_raise_when_decoder_gives_up :
  let answer (body : decoded) : list event -> request -> http_outcome :=
    fun _ _ => Responded {| status_code := 200; reason := "OK";
                            response_url := "https://api.etherscan.io/api";
                            json_body := body |} in
  let w := {| self := EtherscanAPI_init "YourApiKeyToken" 1; trace := [] |} in
  (forall repr,
     get_gas_prices repr (answer Overlong) w
     = (Raise ValueError, after w [Sent (request_of GetGasPrices w)]))
  /\ (forall repr,
        get_gas_prices repr (answer TooDeep) w
        = (Raise RecursionError, after w [Sent (request_of GetGasPrices w)])).
Proof. intros answer w. split; intros repr; vm_compute; reflexivity. Qed.

(** C3.  For each of the three operations, when the response passes the
    status check and decodes to a JSON object: if its [status] is the string
    ["1"] the operation prints its success line and returns the object; if
    [status] is anything else, or missing, the operation returns [None] and
    prints the error line with the message of the response (a string message
    verbatim, ["Unknown error"] when there is none); so the object is returned
    only when [status] is ["1"]. *)
Theorem operations_check_status
    (repr : pyval -> string) (net : list event -> request -> http_outcome)
    (c : call) (w : world) (d : pydict) :
  decodes_to (net (trace w) (request_of c w)) (JObj d) ->
  let w1 := after w [Sent (request_of c w)] in
  let message :=
    match d !! "message"%string with
    | Some (JStr m) => m
    | Some v => repr v
    | None => "Unknown error"%string
    end in
  (d !! "status"%string = Some (JStr "1") ->
   run_call repr net c w
   = (Return (Some d), after w1 [Printed (success_line_of c)]))
  /\ (d !! "status"%string <> Some (JStr "1") ->
      run_call repr net c w
      = (Return None, after w1 [Printed ("✗ API returned error: " +:+ message)]))
  /\ (forall d', fst (run_call repr net c w) = Return (Some d') ->
                 d' = d /\ d !! "status"%string = Some (JStr "1")).
Proof.
  intros Hdec w1 message.
  pose proof (fetch_run repr net c w) as E. cbv zeta in E. fold w1 in E.
  destruct (net (trace w) (request_of c w)) as [msg | r]; [destruct Hdec |].
  rewrite (decodes_to_run r _ Hdec) in E. cbn [as_dict] in E.
  assert (Hmsg : py_str repr (dict_get_default d "message" (JStr "Unknown error"))
                 = message).
  { unfold message, dict_get_default.
    destruct (d !! "message"%string) as [[]|]; reflexivity. }
  rewrite Hmsg in E. rewrite E. clear E.
  destruct (eq_str (dict_get d "status") "1") eqn:Hs.
  - apply eq_str_status in Hs. repeat split; try congruence.
    cbn in H. congruence.
  - assert (Hne : d !! "status"%string <> Some (JStr "1")).
    { intros H. apply eq_str_status in H. congruence. }
    repeat split; try contradiction; cbn in H; discriminate H.
Qed.

Lemma operations_check_status_witness :
  let d : pydict := {[ "status"%string := JStr "0"; "message"%string := JStr "NOTOK" ]} in
  let net : list event -> request -> http_outcome :=
    fun _ _ => Responded {| status_code := 200; reason := "OK";
                            response_url := "https://api.etherscan.io/api";
                            json_body := Decoded (JObj d) |} in
  let w := {| self := EtherscanAPI_init "YourApiKeyToken" 1; trace := [] |} in
  let repr : pyval -> string := fun _ => ""%string in
  decodes_to (net (trace w) (request_of GetGasPrices w)) (JObj d)
  /\ get_gas_prices repr net w
     = (Return None,
        after (after w [Sent (request_of GetGasPrices w)])
          [Printed "✗ API returned error: NOTOK"]).
Proof.
  intros d net w repr.
  assert (H : decodes_to (net (trace w) (request_of GetGasPrices w)) (JObj d)).
  { split; [cbn; lia | reflexivity]. }
  split; [exact H |].
  apply (operations_check_status repr net GetGasPrices w d H).
  vm_compute. discriminate.
Defined.

Lemma init_session_params (key : string) (cid : Z) :
  session_params (session (EtherscanAPI_init key cid))
  = {[ "apikey"%string := PStr key; "chainid"%string := PInt cid ]}.
Proof. unfold EtherscanAPI_init, Session_new. cbn. apply (right_id_L ∅ (∪)). Qed.

Lemma query_defaults (key : string) (cid : Z) (c : call) :
  let q :=
    merge_setting (params_of c)
      {[ "apikey"%string := PStr key; "chainid"%string := PInt cid ]} in
  q !! "apikey"%string = Some (PStr key) /\ q !! "chainid"%string = Some (PInt cid).
Proof.
  unfold merge_setting.
  destruct c; cbn [params_of]; split;
    (rewrite lookup_union_r; [by simplify_map_eq | by simplify_map_eq]).
Qed.

(** C4.  For a client constructed with [api_key] and [chainid], each of the
    three operations, whatever its arguments, sends one request, and the
    query of that request has [apikey] equal to the construction [api_key]
    and [chainid] equal to the construction [chainid]. *)
Theorem requests_carry_defaults
    (repr : pyval -> string) (net : list event -> request -> http_outcome)
    (key : string) (cid : Z) (c : call) (w : world) :
  self w = EtherscanAPI_init key cid ->
  exists r,
    requests_of (trace (snd (run_call repr net c w))) = requests_of (trace w) ++ [r]
    /\ query r !! "apikey"%string = Some (PStr key)
    /\ query r !! "chainid"%string = Some (PInt cid).
Proof.
  intros Hself. exists (request_of c w). split.
  - apply run_call_requests.
  - unfold request_of. cbn [query]. rewrite Hself, init_session_params.
    apply query_defaults.
Qed.

Lemma requests_carry_defaults_witness :
  let net : list event -> request -> http_outcome :=
    fun _ _ => TransportError "timed out" in
  let w := {| self := EtherscanAPI_init "key" 11155111; trace := [] |} in
  let repr : pyval -> string := fun _ => ""%string in
  self w = EtherscanAPI_init "key" 11155111
  /\ exists r,
       requests_of (trace (snd (run_call repr net (GetEthBalance example_wallet) w)))
       = requests_of (trace w) ++ [r]
       /\ query r !! "apikey"%string = Some (PStr "key")
       /\ query r !! "chainid"%string = Some (PInt 11155111).
Proof.
  intros net w repr.
  assert (H : self w = EtherscanAPI_init "key" 11155111) by reflexivity.
  split; [exact H |].
  apply (requests_carry_defaults repr net "key" 11155111 (GetEthBalance example_wallet) w H).
Defined.

(** C8.  Each operation sends exactly one request, to the client's base URL,
    with exactly its own per-call parameters: [get_gas_prices] module
    gastracker, action gasoracle; [get_token_balance] module account, action
    tokenbalance, contractaddress, address, tag latest; [get_eth_balance]
    module account, action balance, address, tag latest.  These are merged
    over the session's parameters, and the timeout is 10 every time. *)
Theorem operations_send_their_parameters
    (repr : pyval -> string) (net : list event -> request -> http_outcome)
    (w : world) (contract_address wallet_address : string) :
  let sent (params : params_map) :=
    [ {| url := base_url (self w);
         params := params;
         query := params ∪ session_params (session (self w));
         timeout := 10 |} ] in
  requests_of (trace (snd (get_gas_prices repr net w)))
  = requests_of (trace w)
    ++ sent {[ "module"%string := PStr "gastracker";
               "action"%string := PStr "gasoracle" ]}
  /\ requests_of
       (trace (snd (get_token_balance repr net contract_address wallet_address w)))
     = requests_of (trace w)
       ++ sent {[ "module"%string := PStr "account";
                  "action"%string := PStr "tokenbalance";
                  "contractaddress"%string := PStr contract_address;
                  "address"%string := PStr wallet_address;
                  "tag"%string := PStr "latest" ]}
  /\ requests_of (trace (snd (get_eth_balance repr net wallet_address w)))
     = requests_of (trace w)
       ++ sent {[ "module"%string := PStr "account";
                  "action"%string := PStr "balance";
                  "address"%string := PStr wallet_address;
                  "tag"%string := PStr "latest" ]}.
Proof.
  intros sent. split; [| split].
  - apply (run_call_requests repr net GetGasPrices w).
  - apply (run_call_requests repr net
             (GetTokenBalance contract_address wallet_address) w).
  - apply (run_call_requests repr net (GetEthBalance wallet_address) w).
Qed.

Lemma run_calls_self
    (repr : pyval -> string) (net : list event -> request -> http_outcome)
    (cs : list call) :
  forall w, self (run_calls repr net cs w) = self w.
Proof.
  induction cs as [|c cs IH]; intros w; cbn [run_calls]; [reflexivity |].
  rewrite IH. apply run_call_self.
Qed.

(** C10.  After any sequence of calls of the three operations on a client
    constructed with [api_key] and [chainid], the client's [api_key],
    [chainid] and [base_url] and the session's default parameters are as
    construction set them; the per-call parameters never reach the session. *)
Theorem operations_leave_client_unchanged
    (repr : pyval -> string) (net : list event -> request -> http_outcome)
    (key : string) (cid : Z) (cs : list call) (tr : list event) :
  let w := {| self := EtherscanAPI_init key cid; trace := tr |} in
  let client := self (run_calls repr net cs w) in
  client = EtherscanAPI_init key cid
  /\ api_key client = key
  /\ chainid client = cid
  /\ base_url client = "https://api.etherscan.io/api"%string
  /\ session_params (session client)
     = {[ "apikey"%string := PStr key; "chainid"%string := PInt cid ]}.
Proof.
  intros w client. unfold client. rewrite run_calls_self. cbn [self w].
  repeat split.
Qed.

(** ** The driver *)

Section Driver.

Variable max_str_digits : Z.
Variable repr : pyval -> string.
Variable net : list event -> request -> http_outcome.

Lemma print_then {A : Type} (line : string) (m : M A) (w : world) :
  (print line ;;; m) w = m (after w [Printed line]).
Proof. reflexivity. Qed.

Lemma print_run (line : string) (w : world) :
  print line w = (Return tt, after w [Printed line]).
Proof. reflexivity. Qed.

Lemma example1_heading_run (w : world) :
  exists lines, example1_heading w = (Return tt, after w (map Printed lines)).
Proof.
  unfold example1_heading. rewrite !print_then, print_run, !after_after.
  now eexists [_; _; _].
Qed.

Lemma example2_heading_run (w : world) :
  exists lines, example2_heading w = (Return tt, after w (map Printed lines)).
Proof.
  unfold example2_heading. rewrite !print_then, print_run, !after_after.
  now eexists [_; _; _; _; _].
Qed.

Lemma example3_heading_run (w : world) :
  exists lines, example3_heading w = (Return tt, after w (map Printed lines)).
Proof.
  unfold example3_heading. rewrite !print_then, print_run, !after_after.
  now eexists [_; _; _; _].
Qed.

(** A heading and a fetch that returns [None] leave no formatter call. *)
Lemma heading_and_fetch_events (c : call) (w w' : world) (lines : list string) :
  snd (run_call repr net c (after w (map Printed lines))) = w' ->
  exists evs, trace w' = trace w ++ evs /\ forall f, ~ In (Called f) evs.
Proof.
  intros <-. destruct (run_call_world repr net c (after w (map Printed lines)))
    as (evs & -> & Hevs).
  rewrite after_after. eexists. split; [reflexivity |].
  intros f Hin. apply in_app_or in Hin as [Hin | [Hin | Hin]].
  - apply in_map_iff in Hin as (line & [=] & _).
  - discriminate Hin.
  - apply Hevs in Hin as (line & [=]).
Qed.

End Driver.

(** C9.  In each of the three examples of the driver, when the fetch returns
    [None] the example ends there: nothing after the fetch is run, no
    formatter is called anywhere in the example, and the driver goes on with
    whatever follows the example. *)
Theorem driver_skips_absent
    (max_str_digits : Z) (repr : pyval -> string)
    (net : list event -> request -> http_outcome) (k : M unit) (w : world) :
  (forall w',
     get_gas_prices repr net (snd (example1_heading w)) = (Return None, w') ->
     (example1 repr net ;;; k) w = k w'
     /\ exists evs, trace w' = trace w ++ evs /\ forall f, ~ In (Called f) evs)
  /\ (forall w',
        get_token_balance repr net usdt_contract example_wallet
          (snd (example2_heading w)) = (Return None, w') ->
        (example2 max_str_digits repr net ;;; k) w = k w'
        /\ exists evs, trace w' = trace w ++ evs /\ forall f, ~ In (Called f) evs)
  /\ (forall w',
        get_eth_balance repr net example_wallet
          (snd (example3_heading w)) = (Return None, w') ->
        (example3 max_str_digits repr net ;;; k) w = k w'
        /\ exists evs, trace w' = trace w ++ evs /\ forall f, ~ In (Called f) evs).
Proof.
  split; [| split]; intros w' Hfetch.
  - destruct (example1_heading_run w) as (lines & Hhead).
    rewrite Hhead in Hfetch. cbn [snd] in Hfetch. split.
    + unfold example1, bindM. rewrite Hhead, Hfetch. reflexivity.
    + apply (heading_and_fetch_events repr net GetGasPrices w w' lines).
      cbn [run_call]. now rewrite Hfetch.
  - destruct (example2_heading_run w) as (lines & Hhead).
    rewrite Hhead in Hfetch. cbn [snd] in Hfetch. split.
    + unfold example2, bindM. rewrite Hhead, Hfetch. reflexivity.
    + apply (heading_and_fetch_events repr net
               (GetTokenBalance usdt_contract example_wallet) w w' lines).
      cbn [run_call]. now rewrite Hfetch.
  - destruct (example3_heading_run w) as (lines & Hhead).
    rewrite Hhead in Hfetch. cbn [snd] in Hfetch. split.
    + unfold example3, bindM. rewrite Hhead, Hfetch. reflexivity.
    + apply (heading_and_fetch_events repr net (GetEthBalance example_wallet) w w' lines).
      cbn [run_call]. now rewrite Hfetch.
Qed.

Lemma driver_skips_absent_witness :
  let d : pydict := {[ "status"%string := JStr "0"; "message"%string := JStr "NOTOK" ]} in
  let net : list event -> request -> http_outcome :=
    fun _ _ => Responded {| status_code := 200; reason := "OK";
                            response_url := "https://api.etherscan.io/api";
                            json_body := Decoded (JObj d) |} in
  let w := {| self := EtherscanAPI_init "YourApiKeyToken" 1; trace := [] |} in
  let repr : pyval -> string := fun _ => ""%string in
  let w' := snd (get_gas_prices repr net (snd (example1_heading w))) in
  get_gas_prices repr net (snd (example1_heading w)) = (Return None, w')
  /\ (example1 repr net ;;; ret tt) w = (Return tt, w')
  /\ exists evs, trace w' = trace w ++ evs /\ forall f, ~ In (Called f) evs.
Proof.
  intros d net w repr w'.
  assert (H : get_gas_prices repr net (snd (example1_heading w)) = (Return None, w'))
    by (vm_compute; reflexivity).
  split; [exact H |].
  exact (proj1 (driver_skips_absent 4300 repr net (ret tt) w) w' H).
Defined.

(** The whole driver against an API that answers every request with status
    ["0"]: it runs to the end and calls no formatter. *)
Lemma main_all_absent :
  let d : pydict := {[ "status"%string := JStr "0"; "message"%string := JStr "NOTOK" ]} in
  let net : list event -> request -> http_outcome :=
    fun _ _ => Responded {| status_code := 200; reason := "OK";
                            response_url := "https://api.etherscan.io/api";
                            json_body := Decoded (JObj d) |} in
  let w := {| self := EtherscanAPI_init "" 0; trace := [] |} in
  forall repr,
    fst (main 4300 repr net w) = Return tt
    /\ forallb (fun ev => match ev with Called _ => false | _ => true end)
         (trace (snd (main 4300 repr net w))) = true
    /\ length (requests_of (trace (snd (main 4300 repr net w)))) = 3%nat
    /\ last (trace (snd (main 4300 repr net w))) = Some (Printed (rule "=")).
Proof. intros d net w repr. repeat split; vm_compute; reflexivity. Qed.

(** The whole driver against an API that answers: the gas table and both
    balances are printed. *)
Lemma main_all_present :
  let gas : pydict :=
    {[ "SafeGasPrice"%string := JStr "20"; "ProposeGasPrice"%string := JStr "22";
       "FastGasPrice"%string := JStr "24"; "LastBlock"%string := JStr "100" ]} in
  let answer (result : pyval) : http_outcome :=
    Responded {| status_code := 200; reason := "OK";
                 response_url := "https://api.etherscan.io/api";
                 json_body :=
                   Decoded (JObj {[ "status"%string := JStr "1";
                                    "message"%string := JStr "OK";
                                    "result"%string := result ]}) |} in
  let net : list event -> request -> http_outcome :=
    fun _ r =>
      match query r !! "action"%string with
      | Some (PStr "gasoracle") => answer (JObj gas)
      | Some (PStr "tokenbalance") => answer (JStr "1000000")
      | _ => answer (JStr "123456789000000000000")
      end in
  let w := {| self := EtherscanAPI_init "" 0; trace := [] |} in
  forall repr,
    let printed line :=
      existsb (fun ev => match ev with
                         | Printed l => String.eqb l line
                         | _ => false
                         end)
        (trace (snd (main 4300 repr net w))) in
    fst (main 4300 repr net w) = Return tt
    /\ printed (nl +:+ "=== Current Gas Prices (Gwei) ===" +:+ nl
                +:+ "Safe Gas Price:    20 Gwei" +:+ nl
                +:+ "Propose Gas Price: 22 Gwei" +:+ nl
                +:+ "Fast Gas Price:    24 Gwei" +:+ nl
                +:+ "Last Block:        100") = true
    /\ printed (nl +:+ "Token Balance: 1.000000 USDT") = true
    /\ printed (nl +:+ "ETH Balance: 123.456789 ETH") = true
    /\ printed "Using chainid: 1 (Ethereum Mainnet)" = false
    /\ printed (nl +:+ "Using chainid: 1 (Ethereum Mainnet)") = true.
Proof. intros gas answer net w repr printed. repeat split; vm_compute; reflexivity. Qed.

(** * Further properties of the code *)

(** ** [format_gas_prices]: what it does without a usable [result] *)

(** Without data, with an empty mapping, or with a mapping that has no
    [result] key, [format_gas_prices] returns its fixed text and does not
    raise. *)
Theorem format_gas_prices_no_data (repr : pyval -> string) (data : option pydict) :
  (data = None \/ exists d, data = Some d /\ d !! "result"%string = None) ->
  format_gas_prices repr data = Return "No gas price data available"%string.
Proof.
  unfold format_gas_prices, dict_contains, dict_of.
  intros [-> | (d & -> & Hd)]; [reflexivity |].
  change (default ∅ (Some d)) with d. rewrite Hd.
  rewrite (bool_decide_eq_false_2 (is_Some None)) by (intros [? [=]]).
  now rewrite orb_true_r.
Qed.

Lemma format_gas_prices_no_data_witness :
  let data : option pydict := Some {[ "status"%string := JStr "1" ]} in
  let repr : pyval -> string := fun _ => ""%string in
  (data = None \/ exists d, data = Some d /\ d !! "result"%string = None)
  /\ format_gas_prices repr data = Return "No gas price data available"%string.
Proof.
  intros data repr.
  assert (H : data = None \/ exists d, data = Some d /\ d !! "result"%string = None).
  { right. eexists. split; [reflexivity | vm_compute; reflexivity]. }
  split; [exact H |].
  apply (format_gas_prices_no_data repr data H).
Defined.

(** When [result] is there but is not a mapping (a string, as in the API's
    error answers, a number, a list, null), [format_gas_prices] raises
    [AttributeError]. *)
Theorem format_gas_prices_result_not_mapping
    (repr : pyval -> string) (d : pydict) (v : pyval) :
  d !! "result"%string = Some v ->
  (forall r, v <> JObj r) ->
  format_gas_prices repr (Some d) = Raise AttributeError.
Proof.
  intros Hd Hv.
  unfold format_gas_prices, truthy, dict_of, dict_contains, dict_item.
  change (default ∅ (Some d)) with d. rewrite Hd.
  rewrite bool_decide_eq_false_2 by (intros ->; now rewrite lookup_empty in Hd).
  rewrite bool_decide_eq_true_2 by eauto.
  destruct v; try reflexivity. now destruct (Hv d0).
Qed.

Lemma format_gas_prices_result_not_mapping_witness :
  let v := JStr "Max rate limit reached" in
  let d : pydict := {[ "status"%string := JStr "1"; "result"%string := v ]} in
  let repr : pyval -> string := fun _ => ""%string in
  d !! "result"%string = Some v
  /\ (forall r, v <> JObj r)
  /\ format_gas_prices repr (Some d) = Raise AttributeError.
Proof.
  intros v d repr.
  assert (H1 : d !! "result"%string = Some v) by (vm_compute; reflexivity).
  assert (H2 : forall r, v <> JObj r) by (intros r; discriminate).
  split; [exact H1 |]. split; [exact H2 |].
  apply (format_gas_prices_result_not_mapping repr d v H1 H2).
Defined.

(** ** [format_balance]: every outcome *)

Module BalanceFacts.
Import PyFloat.

Lemma round_half_even_ge_floor p q : p / q <= round_half_even p q.
Proof.
  unfold round_half_even.
  destruct (2 * (p mod q) <? q); [lia |].
  destruct (q <? 2 * (p mod q)); [lia |].
  destruct (Z.even (p / q)); lia.
Qed.

Lemma floor_log2_quot_lower a b :
  0 < a -> 0 < b ->
  b * 2 ^ Z.max 0 (floor_log2_quot a b) <= a * 2 ^ Z.max 0 (- floor_log2_quot a b).
Proof.
  intros Ha Hb. unfold floor_log2_quot.
  destruct (Z.log2_spec a Ha) as [Ha1 Ha2].
  destruct (Z.log2_spec b Hb) as [Hb1 Hb2].
  pose proof (Z.log2_nonneg a) as Hla. pose proof (Z.log2_nonneg b) as Hlb.
  set (la := Z.log2 a) in *. set (lb := Z.log2 b) in *. set (L := la - lb).
  destruct (b * 2 ^ Z.max 0 L <=? a * 2 ^ Z.max 0 (- L)) eqn:E.
  - now apply Z.leb_le in E.
  - clear E. destruct (Z_le_gt_dec L 0) as [HL | HL].
    + rewrite (Z.max_l 0 (L - 1)), (Z.max_r 0 (- (L - 1))) by lia.
      change (2 ^ 0) with 1. rewrite Z.mul_1_r.
      assert (E : 2 ^ Z.succ lb = 2 ^ la * 2 ^ (- (L - 1))).
      { rewrite <- Z.pow_add_r by lia. f_equal. lia. }
      assert (0 < 2 ^ (- (L - 1))) by (apply Z.pow_pos_nonneg; lia).
      nia.
    + rewrite (Z.max_r 0 (L - 1)), (Z.max_l 0 (- (L - 1))) by lia.
      change (2 ^ 0) with 1. rewrite Z.mul_1_r.
      assert (E : 2 ^ la = 2 ^ Z.succ lb * 2 ^ (L - 1)).
      { rewrite <- Z.pow_add_r by lia. f_equal. lia. }
      assert (0 < 2 ^ (L - 1)) by (apply Z.pow_pos_nonneg; lia).
      nia.
Qed.

Lemma floor_log2_quot_huge a b :
  0 < b -> 2 ^ 1024 * b <= a -> 1024 <= floor_log2_quot a b.
Proof.
  intros Hb Hab.
  assert (Ha : 0 < a) by nia.
  unfold floor_log2_quot.
  destruct (Z.log2_spec a Ha) as [Ha1 Ha2].
  destruct (Z.log2_spec b Hb) as [Hb1 Hb2].
  pose proof (Z.log2_nonneg a) as Hla. pose proof (Z.log2_nonneg b) as Hlb.
  set (la := Z.log2 a) in *. set (lb := Z.log2 b) in *. set (L := la - lb).
  assert (HL : 1024 <= L).
  { assert (2 ^ (1024 + lb) < 2 ^ Z.succ la).
    { rewrite Z.pow_add_r by lia. nia. }
    apply Z.pow_lt_mono_r_iff in H; lia. }
  destruct (b * 2 ^ Z.max 0 L <=? a * 2 ^ Z.max 0 (- L)) eqn:E; [exact HL |].
  apply Z.leb_gt in E.
  rewrite (Z.max_r 0 L), (Z.max_l 0 (- L)) in E by lia.
  change (2 ^ 0) with 1 in E. rewrite Z.mul_1_r in E.
  assert (2 ^ 1024 < 2 ^ L) by nia.
  apply Z.pow_lt_mono_r_iff in H; lia.
Qed.

(** A quotient of magnitude [2^1024] or more does not fit a float. *)
Lemma long_true_divide_overflow n b :
  0 < b -> 2 ^ 1024 * b <= Z.abs n -> long_true_divide n b = Raise OverflowError.
Proof.
  intros Hb Hn. unfold long_true_divide.
  assert (Eb : (b =? 0) = false) by (apply Z.eqb_neq; lia).
  assert (En : (n =? 0) = false) by (apply Z.eqb_neq; nia).
  rewrite Eb, En, (Z.abs_eq b) by lia.
  pose proof (floor_log2_quot_huge (Z.abs n) b Hb Hn) as Hq.
  pose proof (floor_log2_quot_lower (Z.abs n) b ltac:(nia) Hb) as Hlow.
  unfold MANT_DIG, MIN_EXP, MAX_EXP.
  set (q := floor_log2_quot (Z.abs n) b) in *.
  rewrite (Z.max_r 0 q), (Z.max_l 0 (- q)) in Hlow by lia.
  change (2 ^ 0) with 1 in Hlow. rewrite Z.mul_1_r in Hlow.
  rewrite (Z.max_r (-1074) (q - (53 - 1))) by lia.
  set (e := q - (53 - 1)).
  rewrite (Z.max_r 0 e), (Z.max_l 0 (- e)) by (unfold e; lia).
  change (2 ^ 0) with 1. rewrite Z.mul_1_r.
  assert (He : (0 <=? e) = true) by (apply Z.leb_le; unfold e; lia).
  rewrite He. cbn [andb].
  assert (Hpow : 2 ^ q = 2 ^ e * 2 ^ 52).
  { rewrite <- Z.pow_add_r by (unfold e; lia). f_equal. unfold e. lia. }
  assert (Hpe : 2 ^ 972 <= 2 ^ e) by (apply Z.pow_le_mono_r; unfold e; lia).
  assert (Hden : 0 < b * 2 ^ e) by nia.
  assert (Hm : 2 ^ 52 <= round_half_even (Z.abs n) (b * 2 ^ e)).
  { etransitivity; [| apply round_half_even_ge_floor].
    apply Z.div_le_lower_bound; [exact Hden | nia]. }
  assert (Hbig : 2 ^ 1024 <= round_half_even (Z.abs n) (b * 2 ^ e) * 2 ^ e).
  { change (2 ^ 1024) with (2 ^ 52 * 2 ^ 972). nia. }
  apply Z.leb_le in Hbig. now rewrite Hbig.
Qed.

Lemma long_true_divide_outcome n b :
  0 < b ->
  long_true_divide n b = Raise OverflowError
  \/ exists neg m e, 0 <= m /\ long_true_divide n b = Return (Finite neg m e).
Proof.
  intros Hb. unfold long_true_divide.
  assert (Eb : (b =? 0) = false) by (apply Z.eqb_neq; lia).
  rewrite Eb. destruct (n =? 0).
  - right. exists (xorb (n <? 0) (b <? 0)), 0, 0. split; [lia | reflexivity].
  - match goal with
    | |- context [if ?c then _ else _] => destruct c
    end; [now left | right].
    do 3 eexists. split; [| reflexivity].
    apply PyFloatFacts.round_half_even_bound.
    + apply Z.mul_nonneg_nonneg; [lia | apply Z.pow_nonneg; lia].
    + rewrite (Z.abs_eq b) by lia.
      apply Z.mul_pos_pos; [lia | apply Z.pow_pos_nonneg; lia].
Qed.

Lemma py_int_raises lim v e :
  py_int lim v = Raise e -> e = ValueError \/ e = TypeError \/ e = OverflowError.
Proof.
  destruct v as [| b | z | x | s | l | d]; cbn [py_int]; try (intros [= <-]; tauto);
    try discriminate.
  - destruct x; cbn; [discriminate | |]; intros [= <-]; tauto.
  - intros H. apply PyIntFacts.from_string_raises in H. tauto.
Qed.

Lemma is_digit_char (d : Z) : 0 <= d < 10 -> is_digit (digit_char d) = true.
Proof.
  intros H.
  assert (d = 0 \/ d = 1 \/ d = 2 \/ d = 3 \/ d = 4 \/ d = 5 \/ d = 6 \/ d = 7
          \/ d = 8 \/ d = 9) as Hd by lia.
  repeat (destruct Hd as [-> | Hd]; [reflexivity |]). now subst.
Qed.

Lemma mod10_digit (n : Z) : is_digit (digit_char (n mod 10)) = true.
Proof. apply is_digit_char. apply Z.mod_pos_bound. lia. Qed.

Lemma fixed_digits_spec (k : nat) :
  forall r acc,
    all_digits acc = true ->
    all_digits (fixed_digits k r acc) = true
    /\ String.length (fixed_digits k r acc) = (k + String.length acc)%nat.
Proof.
  induction k as [|k IH]; intros r acc Hacc; cbn [fixed_digits].
  - split; [exact Hacc | reflexivity].
  - destruct (IH (r / 10) (String (digit_char (r mod 10)) acc)) as [H1 H2].
    + cbn [all_digits]. now rewrite mod10_digit.
    + split; [exact H1 |]. rewrite H2. cbn [String.length]. lia.
Qed.

Lemma dec_digits_spec (fuel : nat) :
  forall n acc,
    all_digits acc = true ->
    all_digits (dec_digits (S fuel) n acc) = true
    /\ dec_digits (S fuel) n acc <> ""%string.
Proof.
  induction fuel as [|fuel IH]; intros n acc Hacc.
  - cbn [dec_digits]. destruct (n <? 10); cbn [all_digits];
      rewrite mod10_digit; split; try assumption; discriminate.
  - change (dec_digits (S (S fuel)) n acc)
      with (let acc' := String (digit_char (n mod 10)) acc in
            if n <? 10 then acc' else dec_digits (S fuel) (n / 10) acc').
    cbv zeta. destruct (n <? 10).
    + cbn [all_digits]. rewrite mod10_digit. split; [assumption | discriminate].
    + apply IH. cbn [all_digits]. now rewrite mod10_digit.
Qed.

Lemma fixed6_shape (neg : bool) (k : Z) : fixed_point_text (fixed6 neg k).
Proof.
  unfold fixed6.
  exists (if neg then "-" else "")%string, (str_of_nat (k / 10 ^ 6)),
         (fixed_digits 6 (k mod 10 ^ 6) "").
  destruct (dec_digits_spec (Z.to_nat (Z.log2 (k / 10 ^ 6))) (k / 10 ^ 6) ""
              eq_refl) as [H1 H2].
  destruct (fixed_digits_spec 6 (k mod 10 ^ 6) "" eq_refl) as [H3 H4].
  repeat split; try assumption.
  destruct neg; auto.
Qed.

End BalanceFacts.

Lemma format_balance_cases (max_str_digits : Z) (v : pyval) (decimals : N) :
  format_balance max_str_digits v decimals = Return "Invalid balance"%string
  \/ (exists neg k, format_balance max_str_digits v decimals
                    = Return (PyFloat.fixed6 neg k))
  \/ format_balance max_str_digits v decimals = Raise OverflowError.
Proof.
  unfold format_balance.
  destruct (py_int max_str_digits v) as [n | e] eqn:E; cbn.
  - destruct (BalanceFacts.long_true_divide_outcome n _ (pow10_pos decimals))
      as [-> | (neg & m & e & Hm & ->)]; cbn.
    + right. right. reflexivity.
    + right. left. eauto.
  - apply BalanceFacts.py_int_raises in E as [-> | [-> | ->]]; auto.
Qed.

(** For every input and every decimals count, [format_balance] ends in one
    of three ways: the marker ["Invalid balance"]; a fixed-point text, an
    optional minus sign, digits, a point and exactly six digits (never [inf],
    [nan] or an exponent); or an [OverflowError], the one exception its
    [except] clause lets through. *)
Theorem format_balance_outcomes (max_str_digits : Z) (v : pyval) (decimals : N) :
  format_balance max_str_digits v decimals = Return "Invalid balance"%string
  \/ (exists out,
        format_balance max_str_digits v decimals = Return out
        /\ fixed_point_text out)
  \/ format_balance max_str_digits v decimals = Raise OverflowError.
Proof.
  unfold format_balance.
  destruct (py_int max_str_digits v) as [n | e] eqn:E; cbn.
  - destruct (BalanceFacts.long_true_divide_outcome n _ (pow10_pos decimals))
      as [-> | (neg & m & e & Hm & ->)]; cbn.
    + right. right. reflexivity.
    + right. left. eexists. split; [reflexivity |]. apply BalanceFacts.fixed6_shape.
  - apply BalanceFacts.py_int_raises in E as [-> | [-> | ->]]; auto.
Qed.

(** A value of magnitude [2^1024 * 10^decimals] or more, whether it comes as
    a literal string or as a JSON number, makes [format_balance] raise
    [OverflowError]: the marker is not returned. *)
Theorem format_balance_overflow
    (max_str_digits : Z) (v : pyval) (n : Z) (decimals : N) :
  py_int max_str_digits v = Return n ->
  2 ^ 1024 * 10 ^ Z.of_N decimals <= Z.abs n ->
  format_balance max_str_digits v decimals = Raise OverflowError.
Proof.
  intros Hv Hn. unfold format_balance. rewrite Hv. cbn.
  now rewrite (BalanceFacts.long_true_divide_overflow n _ (pow10_pos decimals) Hn).
Qed.

Lemma format_balance_overflow_witness :
  let s : string :=
    "1000000000000000000000000000000000000000000000000000000000000000000000000000000000000000000000000000000000000000000000000000000000000000000000000000000000000000000000000000000000000000000000000000000000000000000000000000000000000000000000000000000000000000000000000000000000000000000000000000000000000000000000000000000000000000000" in
  py_int 4300 (JStr s) = Return (10 ^ 330)
  /\ 2 ^ 1024 * 10 ^ Z.of_N 18 <= Z.abs (10 ^ 330)
  /\ format_balance 4300 (JStr s) 18 = Raise OverflowError.
Proof.
  intros s.
  assert (H1 : py_int 4300 (JStr s) = Return (10 ^ 330)) by (vm_compute; reflexivity).
  assert (H2 : 2 ^ 1024 * 10 ^ Z.of_N 18 <= Z.abs (10 ^ 330))
    by (apply Z.leb_le; vm_compute; reflexivity).
  split; [exact H1 |]. split; [exact H2 |].
  apply (format_balance_overflow 4300 (JStr s) (10 ^ 330) 18 H1 H2).
Defined.

(** A literal string is formatted like the integer it denotes: white space
    around it, a plus sign, leading zeros and underscores between digits do
    not change the text. *)
Theorem format_balance_literal_as_integer
    (max_str_digits : Z) (s : string) (n k : Z) (decimals : N) :
  Literal.decimal_literal s n k ->
  PyInt.over_limit max_str_digits k = false ->
  format_balance max_str_digits (JStr s) decimals
  = format_balance max_str_digits (JInt n) decimals.
Proof.
  intros Hlit Hlim. unfold format_balance. cbn [py_int].
  now rewrite (PyIntFacts.from_unicode_complete _ _ _ _ Hlit Hlim).
Qed.

Lemma format_balance_literal_as_integer_witness :
  Literal.decimal_literal " +001_000_000 " 1000000 9
  /\ PyInt.over_limit 4300 9 = false
  /\ format_balance 4300 (JStr " +001_000_000 ") 6
     = format_balance 4300 (JInt 1000000) 6.
Proof.
  assert (H : Literal.decimal_literal " +001_000_000 " 1000000 9).
  { apply (Literal.literal " " "+" false "001_000_000" [0; 0; 1; 0; 0; 0; 0; 0; 0] " ").
    - reflexivity.
    - constructor.
    - repeat first
        [ apply Literal.digits_last; reflexivity
        | apply Literal.digits_group; [reflexivity |]
        | apply Literal.digits_next; [reflexivity |] ].
    - reflexivity. }
  split; [exact H |]. split; [reflexivity |].
  apply (format_balance_literal_as_integer 4300 " +001_000_000 " 1000000 9 6 H).
  reflexivity.
Defined.

(** A negative amount is formatted as the minus sign followed by the text of
    its magnitude, also when the text is all zeros; it overflows exactly when
    the magnitude does. *)
Theorem format_balance_negative (max_str_digits : Z) (n : Z) (decimals : N) :
  0 < n ->
  format_balance max_str_digits (JInt (- n)) decimals
  = match format_balance max_str_digits (JInt n) decimals with
    | Return out => Return ("-" +:+ out)
    | Raise e => Raise e
    end.
Proof.
  intros Hn. unfold format_balance. cbn [py_int]. cbn [mbind result_bind].
  unfold PyFloat.long_true_divide.
  pose proof (pow10_pos decimals) as Hb.
  assert (E1 : (10 ^ Z.of_N decimals =? 0) = false) by (apply Z.eqb_neq; lia).
  assert (E2 : (10 ^ Z.of_N decimals <? 0) = false) by (apply Z.ltb_ge; lia).
  assert (E3 : (- n =? 0) = false) by (apply Z.eqb_neq; lia).
  assert (E4 : (n =? 0) = false) by (apply Z.eqb_neq; lia).
  assert (E5 : (- n <? 0) = true) by (apply Z.ltb_lt; lia).
  assert (E6 : (n <? 0) = false) by (apply Z.ltb_ge; lia).
  rewrite E1, E2, E3, E4, E5, E6, Z.abs_opp. cbn [xorb].
  match goal with
  | |- context [if ?c then _ else _] => destruct c
  end; reflexivity.
Qed.

Lemma format_balance_negative_witness :
  0 < 1
  /\ format_balance 4300 (JInt (- 1)) 18 = Return "-0.000000"%string.
Proof.
  assert (H : 0 < 1) by lia.
  split; [exact H |].
  exact (format_balance_negative 4300 1 18 H).
Defined.

(** ** The client operations: what comes back and what is printed *)

Section Calls.

Variable repr : pyval -> string.
Variable net : list event -> request -> http_outcome.

Lemma request_of_self (c : call) (w w' : world) :
  self w' = self w -> request_of c w' = request_of c w.
Proof. unfold request_of. now intros ->. Qed.

Lemma status_nonempty (d : pydict) :
  d !! "status"%string = Some (JStr "1") -> truthy (Some d) = true.
Proof.
  intros H. unfold truthy.
  rewrite bool_decide_eq_false_2; [reflexivity |].
  intros ->. now rewrite lookup_empty in H.
Qed.

(** The run of an operation that returns a mapping. *)
Lemma run_call_some (c : call) (w w' : world) (d : pydict) :
  run_call repr net c w = (Return (Some d), w') ->
  decodes_to (net (trace w) (request_of c w)) (JObj d)
  /\ d !! "status"%string = Some (JStr "1")
  /\ w' = after (after w [Sent (request_of c w)]) [Printed (success_line_of c)].
Proof.
  pose proof (fetch_run repr net c w) as E. cbv zeta in E. rewrite E. clear E.
  destruct (net _ _) as [msg | r]; [discriminate |].
  pose proof (decode_chain_spec r) as Hchain.
  destruct (_ ← raise_for_status r; data ← response_json r; as_dict data) as [d0 | e].
  - destruct (eq_str (dict_get d0 "status") "1") eqn:Hs; [| discriminate].
    intros [= -> <-]. apply eq_str_status in Hs. auto.
  - destruct e; discriminate.
Qed.


End Calls.

(** Whatever the network answers, a mapping that an operation returns is the
    decoded body of a response that passed the status check, its [status] is
    the string ["1"], and it is not empty, so the driver's truth test on it
    succeeds. *)
Theorem returned_data_has_status_one
    (repr : pyval -> string) (net : list event -> request -> http_outcome)
    (c : call) (w w' : world) (d : pydict) :
  run_call repr net c w = (Return (Some d), w') ->
  decodes_to (net (trace w) (request_of c w)) (JObj d)
  /\ d !! "status"%string = Some (JStr "1")
  /\ truthy (Some d) = true.
Proof.
  intros H. apply run_call_some in H as (Hdec & Hs & _).
  repeat split; try assumption; try apply Hdec.
  now apply status_nonempty.
Qed.

Lemma returned_data_has_status_one_witness :
  let d : pydict := {[ "status"%string := JStr "1"; "result"%string := JStr "7" ]} in
  let net : list event -> request -> http_outcome :=
    fun _ _ => Responded {| status_code := 200; reason := "OK";
                            response_url := "https://api.etherscan.io/api";
                            json_body := Decoded (JObj d) |} in
  let w := {| self := EtherscanAPI_init "YourApiKeyToken" 1; trace := [] |} in
  let repr : pyval -> string := fun _ => ""%string in
  let c := GetEthBalance example_wallet in
  run_call repr net c w = (Return (Some d), snd (run_call repr net c w))
  /\ decodes_to (net (trace w) (request_of c w)) (JObj d)
  /\ d !! "status"%string = Some (JStr "1")
  /\ truthy (Some d) = true.
Proof.
  intros d net w repr c.
  assert (H : run_call repr net c w = (Return (Some d), snd (run_call repr net c w)))
    by (vm_compute; reflexivity).
  split; [exact H |].
  exact (returned_data_has_status_one repr net c w _ d H).
Defined.


(** A sequence of calls sends one request per call, in the order of the
    calls: nothing is retried, batched or skipped, whatever the answers. *)
Theorem calls_send_one_request_each
    (repr : pyval -> string) (net : list event -> request -> http_outcome)
    (cs : list call) (w : world) :
  requests_of (trace (run_calls repr net cs w))
  = requests_of (trace w) ++ map (fun c => request_of c w) cs.
Proof.
  revert w. induction cs as [|c cs IH]; intros w; cbn [run_calls map].
  - now rewrite app_nil_r.
  - rewrite IH, run_call_requests, <- app_assoc. cbn [app]. do 2 f_equal.
    apply map_ext. intros c'. apply request_of_self, run_call_self.
Qed.

(** ** The driver, run as a whole *)

Section DriverRuns.

Variable max_str_digits : Z.
Variable repr : pyval -> string.
Variable net : list event -> request -> http_outcome.

Lemma get_self_then {A : Type} (k : EtherscanAPI -> M A) (w : world) :
  (api <~ get_self ;; k api) w = k (self w) w.
Proof. reflexivity. Qed.

Lemma log_then {A : Type} (ev : event) (m : M A) (w : world) :
  (log ev ;;; m) w = m (after w [ev]).
Proof. reflexivity. Qed.

Lemma requests_of_map_printed (lines : list string) :
  requests_of (map Printed lines) = [].
Proof. induction lines as [|l lines IH]; [reflexivity | exact IH]. Qed.

Lemma format_gas_prices_raises (data : option pydict) (e : exn) :
  format_gas_prices repr data = Raise e -> e = AttributeError.
Proof.
  unfold format_gas_prices, dict_contains, dict_item.
  destruct (dict_of data !! "result"%string) as [v|] eqn:E.
  - destruct (negb (truthy data) || _); [discriminate |].
    destruct v; cbn; congruence.
  - rewrite (bool_decide_eq_false_2 (is_Some None)) by (intros [? [=]]).
    rewrite orb_true_r. discriminate.
Qed.

Lemma format_balance_raises (v : pyval) (decimals : N) (e : exn) :
  format_balance max_str_digits v decimals = Raise e -> e = OverflowError.
Proof.
  destruct (format_balance_cases max_str_digits v decimals)
    as [-> | [(neg & k & ->) | ->]]; congruence.
Qed.

Lemma sends_nothing (w : world) (r : result unit) (evs : list event) :
  driver_end r -> requests_of evs = [] ->
  sends_in_order [] w (r, after w evs).
Proof.
  intros Hr Hevs. split; [exact Hr |].
  exists evs, [], []. cbn [fst snd]. auto.
Qed.

Lemma show_gas_prices_run (gas_data : option pydict) (w : world) :
  show_gas_prices repr gas_data w
  = if truthy gas_data then
      match format_gas_prices repr gas_data with
      | Return text => (Return tt, after w [Called "format_gas_prices"; Printed text])
      | Raise e => (Raise e, after w [Called "format_gas_prices"])
      end
    else (Return tt, w).
Proof.
  unfold show_gas_prices. destruct (truthy gas_data); [| reflexivity].
  rewrite log_then. unfold bindM, lift.
  destruct (format_gas_prices repr gas_data); [| reflexivity].
  now rewrite print_run, after_after.
Qed.

Lemma show_balance_run (data : option pydict) (decimals : N)
    (label unit_name : string) (w : world) :
  show_balance max_str_digits data decimals label unit_name w
  = if truthy data then
      match format_balance max_str_digits
              (dict_get_default (dict_of data) "result" (JStr "0")) decimals with
      | Return balance =>
          (Return tt,
           after w [Called "format_balance";
                    Printed (nl +:+ label +:+ balance +:+ " " +:+ unit_name)])
      | Raise e => (Raise e, after w [Called "format_balance"])
      end
    else (Return tt, w).
Proof.
  unfold show_balance. destruct (truthy data); [| reflexivity].
  rewrite log_then. unfold bindM, lift.
  destruct (format_balance _ _ _); [| reflexivity].
  now rewrite print_run, after_after.
Qed.

Lemma after_nil (w : world) : after w [] = w.
Proof. destruct w. unfold after. cbn. now rewrite app_nil_r. Qed.

Lemma show_gas_prices_sends (gas_data : option pydict) (w : world) :
  sends_in_order [] w (show_gas_prices repr gas_data w).
Proof.
  rewrite show_gas_prices_run. destruct (truthy gas_data).
  - destruct (format_gas_prices repr gas_data) as [text | e] eqn:E.
    + apply sends_nothing; [left; reflexivity | reflexivity].
    + apply format_gas_prices_raises in E. subst e.
      apply sends_nothing; [right; left; reflexivity | reflexivity].
  - rewrite <- (after_nil w) at 2.
    apply sends_nothing; [left; reflexivity | reflexivity].
Qed.

Lemma show_balance_sends (data : option pydict) (decimals : N)
    (label unit_name : string) (w : world) :
  sends_in_order [] w (show_balance max_str_digits data decimals label unit_name w).
Proof.
  rewrite show_balance_run. destruct (truthy data).
  - destruct (format_balance _ _ _) as [text | e] eqn:E.
    + apply sends_nothing; [left; reflexivity | reflexivity].
    + apply format_balance_raises in E. subst e.
      apply sends_nothing; [right; right; left; reflexivity | reflexivity].
  - rewrite <- (after_nil w) at 2.
    apply sends_nothing; [left; reflexivity | reflexivity].
Qed.

Lemma run_call_raises (c : call) (w : world) (e : exn) :
  fst (run_call repr net c w) = Raise e ->
  e = AttributeError \/ e = ValueError \/ e = RecursionError.
Proof.
  pose proof (fetch_run repr net c w) as E. cbv zeta in E. rewrite E. clear E.
  destruct (net _ _) as [msg | r]; [discriminate |].
  pose proof (decode_chain_spec r) as Hchain.
  destruct (_ ← raise_for_status r; data ← response_json r; as_dict data) as [d | e'].
  - destruct (eq_str _ _); discriminate.
  - destruct e'; try contradiction; cbn; intros [= <-]; tauto.
Qed.

(** One part of the driver after another. *)
Lemma sends_in_order_seq (m1 m2 : M unit) (reqs1 reqs2 : list request) (w : world) :
  sends_in_order reqs1 w (m1 w) ->
  (forall w1, self w1 = self w -> sends_in_order reqs2 w1 (m2 w1)) ->
  sends_in_order (reqs1 ++ reqs2) w ((m1 ;;; m2) w).
Proof.
  intros (Hend & evs & sent & rest & Hw1 & Hsent & Hreqs & Hret) H2.
  unfold bindM. destruct (m1 w) as [[[] | e] w1]; cbn [fst snd] in *.
  - rewrite (Hret eq_refl), app_nil_r in Hreqs. subst reqs1 w1.
    destruct (H2 (after w evs) eq_refl)
      as (Hend2 & evs2 & sent2 & rest2 & Hw2 & Hsent2 & Hreqs2 & Hret2).
    split; [exact Hend2 |].
    exists (evs ++ evs2), (sent ++ sent2), rest2.
    rewrite Hw2, after_after, requests_of_app, Hsent, Hsent2, Hreqs2.
    rewrite app_assoc. auto.
  - split; [exact Hend |].
    exists evs, sent, (rest ++ reqs2).
    rewrite Hreqs, <- app_assoc. repeat split; auto. discriminate.
Qed.

(** A heading, a call and the use of its result send the request of the
    call and no other. *)
Lemma example_block_sends (heading : M unit) (c : call)
    (show : option pydict -> M unit) (w0 w : world) :
  (forall w', exists lines, heading w' = (Return tt, after w' (map Printed lines))) ->
  (forall data w', sends_in_order [] w' (show data w')) ->
  self w = self w0 ->
  sends_in_order [request_of c w0] w (example_block repr net heading c show w).
Proof.
  intros Hhead Hshow Hself. unfold example_block, bindM.
  destruct (Hhead w) as (lines & ->).
  set (w1 := after w (map Printed lines)).
  destruct (run_call_world repr net c w1) as (evs & Hw2 & Hevs).
  pose proof (run_call_raises c w1) as Hraise.
  assert (Hreq : request_of c w1 = request_of c w0) by now apply request_of_self.
  rewrite Hreq in Hw2.
  assert (Hsent : requests_of (map Printed lines ++ Sent (request_of c w0) :: evs)
                  = [request_of c w0]).
  { rewrite requests_of_app, requests_of_map_printed. cbn [app requests_of].
    now rewrite (requests_of_printed evs Hevs). }
  destruct (run_call repr net c w1) as [[data | e] w2]; cbn [fst snd] in *.
  - subst w2. unfold w1. rewrite after_after.
    destruct (Hshow data (after w (map Printed lines ++ Sent (request_of c w0) :: evs)))
      as (Hend & evs' & sent' & rest' & Hw' & Hsent' & Hreqs' & Hret').
    split; [exact Hend |].
    destruct sent'; [| discriminate Hreqs'].
    exists ((map Printed lines ++ Sent (request_of c w0) :: evs) ++ evs'),
           [request_of c w0], [].
    rewrite Hw', after_after, requests_of_app, Hsent, Hsent'. auto.
  - subst w2. unfold w1. rewrite after_after.
    split; [unfold driver_end; destruct (Hraise e eq_refl) as [-> | [-> | ->]]; tauto |].
    exists (map Printed lines ++ Sent (request_of c w0) :: evs), [request_of c w0], [].
    auto.
Qed.

Lemma summary_run (w : world) :
  exists lines, summary w = (Return tt, after w (map Printed lines)).
Proof.
  unfold summary. rewrite !print_then, print_run, !after_after.
  now eexists [_; _; _; _; _; _; _; _; _; _; _].
Qed.

Lemma examples_send (w0 w : world) :
  self w = self w0 ->
  sends_in_order (map (fun c => request_of c w0) main_calls) w
    ((example1 repr net ;;; example2 max_str_digits repr net ;;;
      example3 max_str_digits repr net ;;; summary) w).
Proof.
  intros Hself.
  change (map (fun c => request_of c w0) main_calls)
    with ([request_of GetGasPrices w0]
          ++ [request_of (GetTokenBalance usdt_contract example_wallet) w0]
          ++ [request_of (GetEthBalance example_wallet) w0] ++ []).
  apply sends_in_order_seq.
  { apply (example_block_sends example1_heading GetGasPrices
             (show_gas_prices repr) w0 w);
      [apply example1_heading_run | apply show_gas_prices_sends | exact Hself]. }
  intros w1 Hw1. apply sends_in_order_seq.
  { apply (example_block_sends example2_heading
             (GetTokenBalance usdt_contract example_wallet)
             (fun data => show_balance max_str_digits data 6 "Token Balance: " "USDT")
             w0 w1);
      [apply example2_heading_run | intros; apply show_balance_sends | congruence]. }
  intros w2 Hw2. apply sends_in_order_seq.
  { apply (example_block_sends example3_heading (GetEthBalance example_wallet)
             (fun data => show_balance max_str_digits data 18 "ETH Balance: " "ETH")
             w0 w2);
      [apply example3_heading_run | intros; apply show_balance_sends | congruence]. }
  intros w3 Hw3. destruct (summary_run w3) as (lines & ->).
  apply sends_nothing; [left; reflexivity | apply requests_of_map_printed].
Qed.

Lemma construct_then {A : Type} (key : string) (cid : Z) (m : M A) (w : world) :
  (construct key cid ;;; m) w
  = m {| self := EtherscanAPI_init key cid; trace := trace w |}.
Proof. reflexivity. Qed.

(** The run of [main]: the banner, the construction of the client, and the
    three examples and the summary from the world that leaves. *)
Lemma main_run (w : world) :
  exists banner,
    requests_of banner = []
    /\ no_formatter_call banner = true
    /\ let w1 := {| self := main_client; trace := trace w ++ banner |} in
       main max_str_digits repr net w
       = (example1 repr net ;;; example2 max_str_digits repr net ;;;
          example3 max_str_digits repr net ;;; summary) w1
       /\ sends_in_order main_requests w1 (main max_str_digits repr net w).
Proof.
  eexists (map Printed [_; _; _; _; _]).
  split; [apply requests_of_map_printed |]. split; [reflexivity |].
  cbv zeta.
  assert (E : main max_str_digits repr net w
              = (example1 repr net ;;; example2 max_str_digits repr net ;;;
                 example3 max_str_digits repr net ;;; summary)
                  {| self := main_client;
                     trace := trace w ++ map Printed
                       [ rule "=";
                         "Etherscan v2 API Example - Proper chainid Parameter Usage";
                         rule "=";
                         nl +:+ "Using chainid: " +:+ str_of_int 1
                         +:+ " (Ethereum Mainnet)";
                         nl +:+ "Note: Replace 'YourApiKeyToken' with your actual API key for real usage."
                         +:+ nl ]%string |}).
  { unfold main. rewrite !print_then, construct_then, get_self_then, !print_then.
    f_equal. unfold after, main_client. cbn [self trace map chainid EtherscanAPI_init].
    now rewrite <- !app_assoc. }
  split; [exact E |].
  rewrite E. apply examples_send. reflexivity.
Qed.

End DriverRuns.

Section DriverFacts.

Variable max_str_digits : Z.
Variable repr : pyval -> string.
Variable net : list event -> request -> http_outcome.





Lemma example_block_present (heading : M unit) (c : call)
    (show : option pydict -> M unit) (w w' : world) (d : pydict) :
  run_call repr net c (snd (heading w)) = (Return (Some d), w') ->
  (exists lines, heading w = (Return tt, after w (map Printed lines))) ->
  example_block repr net heading c show w = show (Some d) w'.
Proof.
  intros Hrun (lines & Hhead). unfold example_block, bindM.
  rewrite Hhead in *. cbn [snd] in Hrun. now rewrite Hrun.
Qed.

Lemma format_balance_zero (decimals : N) :
  format_balance max_str_digits (JStr "0") decimals = Return "0.000000"%string.
Proof.
  unfold format_balance. cbn [py_int].
  change (PyInt.from_unicode max_str_digits "0") with (@Return Z 0).
  cbn [mbind result_bind]. unfold PyFloat.long_true_divide.
  pose proof (pow10_pos decimals) as Hb.
  assert (E1 : (10 ^ Z.of_N decimals =? 0) = false) by (apply Z.eqb_neq; lia).
  assert (E2 : (10 ^ Z.of_N decimals <? 0) = false) by (apply Z.ltb_ge; lia).
  rewrite E1, E2. reflexivity.
Qed.

Lemma format_balance_not_literal (s : string) (decimals : N) :
  (~ exists n k, Literal.unicode_literal s n k) ->
  format_balance max_str_digits (JStr s) decimals = Return "Invalid balance"%string.
Proof.
  intros Hnot. unfold format_balance. cbn [py_int].
  destruct (PyInt.from_unicode max_str_digits s) as [n | e] eqn:E.
  - exfalso. apply Hnot.
    destruct (PyIntFacts.from_unicode_sound _ _ _ E) as (k & Hk & _). eauto.
  - apply PyIntFacts.from_unicode_raises in E. subst e. reflexivity.
Qed.

End DriverFacts.



(** [main] sends its three requests in order, gas oracle, token balance,
    native balance, each to the fixed base URL with timeout 10 and with
    [apikey] and [chainid] of the client it constructed; it sends all three
    when it runs to its end and only the first of them, in order, when it
    stops on an exception, and never any other request. *)
Theorem main_sends_in_order
    (max_str_digits : Z) (repr : pyval -> string)
    (net : list event -> request -> http_outcome) (w : world) :
  let run := main max_str_digits repr net w in
  (exists sent rest,
     main_requests = sent ++ rest
     /\ requests_of (trace (snd run)) = requests_of (trace w) ++ sent
     /\ (fst run = Return tt -> rest = []))
  /\ self (snd run) = main_client
  /\ map query main_requests
     = [ {[ "module"%string := PStr "gastracker";
            "action"%string := PStr "gasoracle";
            "apikey"%string := PStr "YourApiKeyToken";
            "chainid"%string := PInt 1 ]};
         {[ "module"%string := PStr "account";
            "action"%string := PStr "tokenbalance";
            "contractaddress"%string := PStr usdt_contract;
            "address"%string := PStr example_wallet;
            "tag"%string := PStr "latest";
            "apikey"%string := PStr "YourApiKeyToken";
            "chainid"%string := PInt 1 ]};
         {[ "module"%string := PStr "account";
            "action"%string := PStr "balance";
            "address"%string := PStr example_wallet;
            "tag"%string := PStr "latest";
            "apikey"%string := PStr "YourApiKeyToken";
            "chainid"%string := PInt 1 ]} ]
  /\ Forall (fun r => url r = "https://api.etherscan.io/api"%string /\ timeout r = 10)
       main_requests.
Proof.
  intros run. unfold run.
  destruct (main_run max_str_digits repr net w)
    as (banner & Hb & _ & Hmain & Hend & evs & sent & rest & Hsnd & Hsent & Hreqs & Hret).
  split; [| split; [| split]].
  - exists sent, rest. rewrite Hsnd. unfold after. cbn [trace].
    rewrite !requests_of_app, Hb, Hsent, app_nil_r. auto.
  - now rewrite Hsnd.
  - vm_compute. reflexivity.
  - repeat constructor.
Qed.



(** In each of the three examples, when the fetch returns a mapping the
    driver calls the formatter on it, once: the text is printed if the
    formatter returns, and the formatter's exception leaves the driver if it
    raises.  The token balance is formatted with 6 decimals, the native
    balance with 18, and a missing [result] is read as ["0"]. *)
Theorem driver_formats_present
    (max_str_digits : Z) (repr : pyval -> string)
    (net : list event -> request -> http_outcome) (w : world) :
  (forall d w',
     get_gas_prices repr net (snd (example1_heading w)) = (Return (Some d), w') ->
     example1 repr net w
     = match format_gas_prices repr (Some d) with
       | Return text =>
           (Return tt, after w' [Called "format_gas_prices"; Printed text])
       | Raise e => (Raise e, after w' [Called "format_gas_prices"])
       end)
  /\ (forall d w',
        get_token_balance repr net usdt_contract example_wallet
          (snd (example2_heading w)) = (Return (Some d), w') ->
        example2 max_str_digits repr net w
        = match format_balance max_str_digits
                  (dict_get_default d "result" (JStr "0")) 6 with
          | Return balance =>
              (Return tt,
               after w' [Called "format_balance";
                         Printed (nl +:+ "Token Balance: " +:+ balance +:+ " USDT")])
          | Raise e => (Raise e, after w' [Called "format_balance"])
          end)
  /\ (forall d w',
        get_eth_balance repr net example_wallet
          (snd (example3_heading w)) = (Return (Some d), w') ->
        example3 max_str_digits repr net w
        = match format_balance max_str_digits
                  (dict_get_default d "result" (JStr "0")) 18 with
          | Return balance =>
              (Return tt,
               after w' [Called "format_balance";
                         Printed (nl +:+ "ETH Balance: " +:+ balance +:+ " ETH")])
          | Raise e => (Raise e, after w' [Called "format_balance"])
          end).
Proof.
  split; [| split]; intros d w' Hrun.
  - change (example1 repr net w)
      with (example_block repr net example1_heading GetGasPrices
              (show_gas_prices repr) w).
    rewrite (example_block_present repr net example1_heading GetGasPrices
               (show_gas_prices repr) w w' d Hrun (example1_heading_run w)).
    apply (run_call_some repr net GetGasPrices) in Hrun as (_ & Hs & _).
    now rewrite show_gas_prices_run, (status_nonempty d Hs).
  - change (example2 max_str_digits repr net w)
      with (example_block repr net example2_heading
              (GetTokenBalance usdt_contract example_wallet)
              (fun data => show_balance max_str_digits data 6 "Token Balance: " "USDT")
              w).
    rewrite (example_block_present repr net example2_heading
               (GetTokenBalance usdt_contract example_wallet)
               (fun data => show_balance max_str_digits data 6 "Token Balance: " "USDT")
               w w' d Hrun (example2_heading_run w)).
    apply (run_call_some repr net (GetTokenBalance usdt_contract example_wallet))
      in Hrun as (_ & Hs & _).
    now rewrite show_balance_run, (status_nonempty d Hs).
  - change (example3 max_str_digits repr net w)
      with (example_block repr net example3_heading
              (GetEthBalance example_wallet)
              (fun data => show_balance max_str_digits data 18 "ETH Balance: " "ETH")
              w).
    rewrite (example_block_present repr net example3_heading
               (GetEthBalance example_wallet)
               (fun data => show_balance max_str_digits data 18 "ETH Balance: " "ETH")
               w w' d Hrun (example3_heading_run w)).
    apply (run_call_some repr net (GetEthBalance example_wallet))
      in Hrun as (_ & Hs & _).
    now rewrite show_balance_run, (status_nonempty d Hs).
Qed.

Lemma driver_formats_present_witness :
  let d : pydict :=
    {[ "status"%string := JStr "1"; "result"%string := JStr "1000000" ]} in
  let net : list event -> request -> http_outcome :=
    fun _ _ => Responded {| status_code := 200; reason := "OK";
                            response_url := "https://api.etherscan.io/api";
                            json_body := Decoded (JObj d) |} in
  let w := {| self := EtherscanAPI_init "YourApiKeyToken" 1; trace := [] |} in
  let repr : pyval -> string := fun _ => ""%string in
  let w' :=
    snd (get_token_balance repr net usdt_contract example_wallet
           (snd (example2_heading w))) in
  get_token_balance repr net usdt_contract example_wallet (snd (example2_heading w))
  = (Return (Some d), w')
  /\ example2 4300 repr net w
     = (Return tt,
        after w' [Called "format_balance";
                  Printed (nl +:+ "Token Balance: 1.000000 USDT")]).
Proof.
  intros d net w repr w'.
  assert (H : get_token_balance repr net usdt_contract example_wallet
                (snd (example2_heading w)) = (Return (Some d), w'))
    by (vm_compute; reflexivity).
  split; [exact H |].
  exact (proj1 (proj2 (driver_formats_present 4300 repr net w)) d w' H).
Defined.

(** What the driver prints for a balance it cannot read: when the returned
    mapping has no [result], the balance shown is [0.000000]; when [result]
    is a string that is not a decimal-integer literal in any script (an error
    text, say), the balance shown is the marker ["Invalid balance"].  In both
    cases the driver goes on. *)
Theorem driver_balance_fallbacks
    (max_str_digits : Z) (repr : pyval -> string)
    (net : list event -> request -> http_outcome) (w w' : world) (d : pydict) :
  get_token_balance repr net usdt_contract example_wallet (snd (example2_heading w))
  = (Return (Some d), w') ->
  (d !! "result"%string = None ->
   example2 max_str_digits repr net w
   = (Return tt,
      after w' [Called "format_balance";
                Printed (nl +:+ "Token Balance: 0.000000 USDT")]))
  /\ (forall s,
        d !! "result"%string = Some (JStr s) ->
        (~ exists n k, Literal.unicode_literal s n k) ->
        example2 max_str_digits repr net w
        = (Return tt,
           after w' [Called "format_balance";
                     Printed (nl +:+ "Token Balance: Invalid balance USDT")])).
Proof.
  intros Hrun.
  change (example2 max_str_digits repr net w)
    with (example_block repr net example2_heading
            (GetTokenBalance usdt_contract example_wallet)
            (fun data => show_balance max_str_digits data 6 "Token Balance: " "USDT")
            w).
  rewrite (example_block_present repr net example2_heading
             (GetTokenBalance usdt_contract example_wallet)
             (fun data => show_balance max_str_digits data 6 "Token Balance: " "USDT")
             w w' d Hrun (example2_heading_run w)).
  apply (run_call_some repr net (GetTokenBalance usdt_contract example_wallet))
    in Hrun as (_ & Hs & _).
  rewrite show_balance_run, (status_nonempty d Hs).
  unfold dict_get_default, dict_of. change (default ∅ (Some d)) with d.
  split.
  - intros ->. change (default (JStr "0") None) with (JStr "0").
    now rewrite format_balance_zero.
  - intros s -> Hnot. change (default (JStr "0") (Some (JStr s))) with (JStr s).
    now rewrite (format_balance_not_literal max_str_digits s 6 Hnot).
Qed.

Lemma driver_balance_fallbacks_witness :
  let d : pydict := {[ "status"%string := JStr "1"; "message"%string := JStr "OK" ]} in
  let net : list event -> request -> http_outcome :=
    fun _ _ => Responded {| status_code := 200; reason := "OK";
                            response_url := "https://api.etherscan.io/api";
                            json_body := Decoded (JObj d) |} in
  let w := {| self := EtherscanAPI_init "YourApiKeyToken" 1; trace := [] |} in
  let repr : pyval -> string := fun _ => ""%string in
  let w' :=
    snd (get_token_balance repr net usdt_contract example_wallet
           (snd (example2_heading w))) in
  get_token_balance repr net usdt_contract example_wallet (snd (example2_heading w))
  = (Return (Some d), w')
  /\ d !! "result"%string = None
  /\ example2 4300 repr net w
     = (Return tt,
        after w' [Called "format_balance";
                  Printed (nl +:+ "Token Balance: 0.000000 USDT")]).
Proof.
  intros d net w repr w'.
  assert (H : get_token_balance repr net usdt_contract example_wallet
                (snd (example2_heading w)) = (Return (Some d), w'))
    by (vm_compute; reflexivity).
  assert (H' : d !! "result"%string = None) by (vm_compute; reflexivity).
  split; [exact H |]. split; [exact H' |].
  exact (proj1 (driver_balance_fallbacks 4300 repr net w w' d H) H').
Defined.
